(** * Arqon inference bridge: session registry, routing and response shaping

    A shallow embedding of [inference_bridge/arqon_inference_bridge.py]:
    the two backend clients ([OllamaClient], [PetalsClient]), the session
    registry and router of [ArqonInferenceBridge], and the dispatcher
    [process_request].

    Conventions of the embedding.
    - A Python [str] is a [string]; a character is a code point below 256.
    - A Python [int] is a [Z]; a [float] (clock readings, temperatures,
      rates) is idealised as a rational [Q], so rounding is not modelled.
    - [Optional[str]] is [option string]; [x or d] is [Py.or_else].
    - A [dict] keyed by session ids is a [gmap Z _]; the keys of the dicts of
      loaded models and tokenizers are [gset string].
    - Mutation of [self] is explicit state passing: an operation returns its
      result together with the new bridge.
    - What the outside world answers during one call (HTTP replies, clock
      readings, the distributed model's output) is a [World.t] argument.
    - An exception raised inside a [try] block is [Raise e] in the [Exc]
      monad; [except Exception as e] is a [match] on it. *)

From Stdlib Require Import ZArith QArith String Ascii List Bool Lia.
From stdpp Require Import base option gmap strings list fin_maps.

Close Scope Q_scope.
Local Open Scope Z_scope.

(** ** Python primitives used by the bridge *)

Module Py.

(** Exceptions inside a [try] body. *)
Inductive Exc (A : Type) : Type :=
| Raise (e : string)
| Ret (a : A).
Arguments Raise {A} e.
Arguments Ret {A} a.

Definition bind {A B : Type} (m : Exc A) (k : A -> Exc B) : Exc B :=
  match m with
  | Raise e => Raise e
  | Ret a => k a
  end.

(** Truthiness of an [Optional[str]]: [None] and [""] are falsy. *)
Definition truthy (o : option string) : bool :=
  match o with
  | None => false
  | Some EmptyString => false
  | Some (String _ _) => true
  end.

(** [o or d] for [o : Optional[str]] and [d : str]. *)
Definition or_else (o : option string) (d : string) : string :=
  match o with
  | Some (String c s) => String c s
  | _ => d
  end.

(** [s.startswith(p)]. *)
Fixpoint startswith (s p : string) {struct p} : bool :=
  match p with
  | EmptyString => true
  | String c p' =>
      match s with
      | EmptyString => false
      | String d s' => if Ascii.eqb c d then startswith s' p' else false
      end
  end.

(** [sub in s] for strings. *)
Fixpoint contains (s sub : string) : bool :=
  startswith s sub ||
  match s with
  | EmptyString => false
  | String _ s' => contains s' sub
  end.

(** [s[n:]] for [n >= 0]. *)
Fixpoint slice_from (n : nat) (s : string) : string :=
  match n with
  | O => s
  | S n' =>
      match s with
      | EmptyString => EmptyString
      | String _ s' => slice_from n' s'
      end
  end.

(** [c.isspace()] for a code point below 256. *)
Definition isspace (c : ascii) : bool :=
  let n := N_of_ascii c in
  ((9 <=? n) && (n <=? 13) || (28 <=? n) && (n <=? 32)
   || (n =? 133) || (n =? 160))%N.

(** [s.split()]: maximal runs of non-whitespace characters; [word] is the
    run being read. *)
Fixpoint split_from (word s : string) : list string :=
  match s with
  | EmptyString =>
      match word with EmptyString => [] | _ => [word] end
  | String c s' =>
      if isspace c
      then match word with
           | EmptyString => split_from EmptyString s'
           | _ => word :: split_from EmptyString s'
           end
      else split_from (word +:+ String c EmptyString) s'
  end.

Definition split (s : string) : list string := split_from EmptyString s.

(** [s.split(sep)[0]] for a one-character separator. *)
Fixpoint split_head (sep : ascii) (s : string) : string :=
  match s with
  | EmptyString => EmptyString
  | String c s' =>
      if Ascii.eqb c sep then EmptyString else String c (split_head sep s')
  end.

(** [x in l] for a list of strings. *)
Definition in_list (x : string) (l : list string) : bool :=
  existsb (String.eqb x) l.

(** [a > b] on floats. *)
Definition gt (a b : Q) : bool := negb (Qle_bool a b).

(** [a / b]: true division, which raises on a zero divisor. *)
Definition truediv (a b : Q) : Exc Q :=
  if Qeq_bool b 0 then Raise "float division by zero" else Ret (a / b)%Q.

(** Whether converting an [int] to a [float] raises [OverflowError]: the
    ints of magnitude below [2^1024 - 2^970] round to a finite double. *)
Definition float_overflows (n : Z) : bool :=
  2 ^ 1024 - 2 ^ 970 <=? Z.abs n.

(** [n / b] for an [int] [n] and a [float] [b]: the int is converted to a
    float first. *)
Definition int_truediv (n : Z) (b : Q) : Exc Q :=
  if float_overflows n then Raise "int too large to convert to float"
  else truediv (inject_Z n) b.

(** [s.lstrip()], [s.rstrip()] and [s.strip()]: whitespace removed at the
    left end, at the right end, at both. *)
Fixpoint lstrip (s : string) : string :=
  match s with
  | EmptyString => EmptyString
  | String c s' => if isspace c then lstrip s' else s
  end.

Fixpoint rstrip (s : string) : string :=
  match s with
  | EmptyString => EmptyString
  | String c s' =>
      match rstrip s' with
      | EmptyString => if isspace c then EmptyString else String c EmptyString
      | r => String c r
      end
  end.

Definition strip (s : string) : string := lstrip (rstrip s).

(** [s.split(sep)] for a one-character separator: the fields between the
    separators, empty fields included; never the empty list. *)
Fixpoint split_on (sep : ascii) (s : string) : list string :=
  match s with
  | EmptyString => [EmptyString]
  | String c s' =>
      if Ascii.eqb c sep then EmptyString :: split_on sep s'
      else match split_on sep s' with
           | field :: fields => String c field :: fields
           | [] => [String c EmptyString]
           end
  end.

End Py.

Import Py.

Notation "x <- m ;; k" := (Py.bind m (fun x => k))
(at level 100, m at next level, right associativity).

(** ** Data model *)

(** [@dataclass ModelInfo]. *)
Module ModelInfo.
Record t := mk {
  name : string;
  backend : string;
  size_gb : Q;
  parameters : string;
  quantization : string;
  available : bool;
  running : bool
}.
End ModelInfo.

(** [@dataclass InferenceRequest]. *)
Module InferenceRequest.
Record t := mk {
  session_id : Z;
  prompt : string;
  max_tokens : Z;
  temperature : Q;
  model : option string
}.
End InferenceRequest.

(** [@dataclass InferenceResponse]. *)
Module InferenceResponse.
Record t := mk {
  session_id : Z;
  text : string;
  tokens_generated : Z;
  tokens_per_second : Q;
  model_used : string;
  backend : string;
  error : option string
}.

(** [response.session_id = sid]. *)
Definition set_session_id (sid : Z) (r : t) : t :=
  mk sid (text r) (tokens_generated r) (tokens_per_second r)
     (model_used r) (backend r) (error r).
End InferenceResponse.

(** The value stored in [self.sessions[session_id]]:
    [{"model": ..., "created": ..., "requests": ...}]. *)
Module Session.
Record t := mk {
  model : string;
  created : Q;
  requests : Z
}.

(** [session["requests"] += 1]. *)
Definition bump (s : t) : t := mk (model s) (created s) (requests s + 1).
End Session.

(** ** What the outside world answers during one call *)

Module World.

(** The JSON object of Ollama's [/api/generate] reply, restricted to the two
    keys that [OllamaClient.generate] reads; [None] is a missing key. *)
Record GenerateJson := {
  response : option string;
  eval_count : option Z
}.

Record t := {
  (** [time.time()] at the start and at the end of a generation call, and
      when a session is created; [time.strftime(...)] *)
  clock_start : Q;
  clock_end : Q;
  now : Q;
  timestamp : string;
  (** [requests.post(.../api/generate, ...).json()] for a model, prompt,
      token limit and temperature, or the exception raised on the way
      (connection error, timeout, undecodable body, ill-typed fields) *)
  post_generate : string -> string -> Z -> Q -> Exc GenerateJson;
  (** the models parsed from [GET /api/tags], [GET /api/ps], and whether
      [POST /api/pull] answers 200 for a model name *)
  get_tags : Exc (list ModelInfo.t);
  get_ps : Exc (list string);
  post_pull : string -> bool;
  (** whether [AutoTokenizer.from_pretrained] and
      [AutoDistributedModelForCausalLM.from_pretrained] succeed *)
  tokenizer_from_pretrained : string -> bool;
  model_from_pretrained : string -> bool;
  (** the text decoded from the first output of [model_obj.generate] on
      the tokenized prompt, for a model, prompt, token limit and
      temperature, or the exception raised on the way; and
      [len(tokenizer.encode(text))] for a model and a text *)
  decode_generate : string -> string -> Z -> Q -> Exc string;
  encode_len : string -> string -> Exc Z
}.

End World.

(** ** [class OllamaClient]: the local backend *)

Module OllamaClient.

(** [base_url] only addresses the HTTP calls, which [World.t] answers. *)
Record t := mk { available : bool }.

Definition list_models (self : t) (w : World.t) : list ModelInfo.t :=
  if negb (available self) then []
  else match World.get_tags w with
       | Ret models => models
       | Raise _ => []
       end.

Definition list_running (self : t) (w : World.t) : list string :=
  if negb (available self) then []
  else match World.get_ps w with
       | Ret names => names
       | Raise _ => []
       end.

Definition pull_model (self : t) (w : World.t) (model_name : string) : bool :=
  if negb (available self) then false else World.post_pull w model_name.

(** The [try] body of [generate]. In [eval_count / elapsed] the count is
    converted to a float: a count read from the reply is any int and the
    conversion can raise, the word count is a [len] and always converts. *)
Definition generate_try (w : World.t) (model prompt : string)
    (max_tokens : Z) (temperature : Q) (start : Q) : Exc InferenceResponse.t :=
  data <- World.post_generate w model prompt max_tokens temperature ;;
  let elapsed := (World.clock_end w - start)%Q in
  let response_text := default EmptyString (World.response data) in
  let eval_count :=
    default (Z.of_nat (length (Py.split response_text))) (World.eval_count data) in
  tokens_per_second <-
    (if Py.gt elapsed 0 then
       match World.eval_count data with
       | Some _ => Py.int_truediv eval_count elapsed
       | None => Py.truediv (inject_Z eval_count) elapsed
       end
     else Ret 0%Q) ;;
  Ret (InferenceResponse.mk 0 response_text eval_count tokens_per_second
         model "ollama" None).

Definition generate (self : t) (w : World.t) (model prompt : string)
    (max_tokens : Z) (temperature : Q) : InferenceResponse.t :=
  let start := World.clock_start w in
  match generate_try w model prompt max_tokens temperature start with
  | Ret r => r
  | Raise e => InferenceResponse.mk 0 EmptyString 0 0%Q model "ollama" (Some e)
  end.

End OllamaClient.

(** ** [class PetalsClient]: the distributed backend *)

Module PetalsClient.

Record t := mk {
  available : bool;
  models : gset string;
  tokenizers : gset string
}.

Definition SUPPORTED_MODELS : list string :=
  [ "meta-llama/Meta-Llama-3.1-70B-Instruct";
    "meta-llama/Meta-Llama-3.1-8B-Instruct";
    "mistralai/Mixtral-8x22B-Instruct-v0.1";
    "mistralai/Mistral-7B-Instruct-v0.3" ].

Definition list_models (self : t) : list ModelInfo.t :=
  map (fun name =>
         let '(size, params) :=
           if Py.contains name "70B" then (140%Q, "70B")
           else if Py.contains name "22B" then (44%Q, "22B")
           else if Py.contains name "8B" then (16%Q, "8B")
           else if Py.contains name "7B" then (14%Q, "7B")
           else (0%Q, "unknown") in
         ModelInfo.mk name "petals" size params "distributed"
           (available self) false)
      SUPPORTED_MODELS.

(** The tokenizer is stored before the model is fetched, so a failure of the
    second fetch leaves the tokenizer entry behind. *)
Definition load_model (self : t) (w : World.t) (model_name : string) : bool * t :=
  if negb (available self) then (false, self)
  else if decide (model_name ∈ models self) then (true, self)
  else if negb (World.tokenizer_from_pretrained w model_name) then (false, self)
  else
    let self1 := mk (available self) (models self)
                    ({[model_name]} ∪ tokenizers self) in
    if negb (World.model_from_pretrained w model_name) then (false, self1)
    else (true, mk (available self1) ({[model_name]} ∪ models self1)
                   (tokenizers self1)).

(** The [try] body of [generate]. [self.tokenizers[model]] raises [KeyError],
    whose text is the quoted key. [tokens] is a [len], which always converts
    to a float. *)
Definition generate_try (self : t) (w : World.t) (model prompt : string)
    (max_tokens : Z) (temperature : Q) (start : Q) : Exc InferenceResponse.t :=
  _ <- (if decide (model ∈ tokenizers self) then Ret tt
        else Raise ("'" +:+ model +:+ "'")) ;;
  _ <- (if decide (model ∈ models self) then Ret tt
        else Raise ("'" +:+ model +:+ "'")) ;;
  text <- World.decode_generate w model prompt max_tokens temperature ;;
  let text := Py.slice_from (String.length prompt) text in
  let elapsed := (World.clock_end w - start)%Q in
  tokens <- World.encode_len w model text ;;
  tokens_per_second <-
    (if Py.gt elapsed 0 then Py.truediv (inject_Z tokens) elapsed
     else Ret 0%Q) ;;
  Ret (InferenceResponse.mk 0 text tokens tokens_per_second
         model "petals" None).

Definition generate (self : t) (w : World.t) (model prompt : string)
    (max_tokens : Z) (temperature : Q) : InferenceResponse.t * t :=
  let not_loaded :=
    InferenceResponse.mk 0 EmptyString 0 0%Q model "petals"
      (Some "Model not loaded") in
  let run (self1 : t) :=
    let start := World.clock_start w in
    match generate_try self1 w model prompt max_tokens temperature start with
    | Ret r => (r, self1)
    | Raise e =>
        (InferenceResponse.mk 0 EmptyString 0 0%Q model "petals" (Some e),
         self1)
    end in
  if decide (model ∈ models self) then run self
  else
    let '(loaded, self1) := load_model self w model in
    if negb loaded then (not_loaded, self1) else run self1.

End PetalsClient.

(** ** [class ArqonInferenceBridge]: registry, router and dispatcher *)

(** The report dict built by [system_check]. *)
Module SystemReport.
Record t := mk {
  timestamp : string;
  ollama_available : bool;
  ollama_models : list ModelInfo.t;
  ollama_running : list string;
  petals_available : bool;
  petals_models : list ModelInfo.t;
  recommended_actions : list string
}.
End SystemReport.

(** The request dict that [process_request] receives: the JSON object
    restricted to the keys it reads, values at the types that
    [InferenceRequest] annotates; [None] is a missing key. *)
Module Request.
Record t := mk {
  action : option string;
  model : option string;
  session_id : option Z;
  prompt : option string;
  max_tokens : option Z;
  temperature : option Q
}.
End Request.

(** The dict that [process_request] returns. *)
Module Reply.
Inductive t :=
| SystemCheck (report : SystemReport.t)
| Models (models : list ModelInfo.t)
| Pulled (success : bool) (model : string)
| Recommended (results : list (string * string))
| SessionId (session_id : Z)
| Success (success : bool)
| Response (response : InferenceResponse.t)
| Unrouted (session_id : Z)     (* the response of [infer]'s last branch to
                                   a model that is not a string: backend
                                   ["none"] and its error, the model as it
                                   came under ["model_used"] *)
| Error (error : string).
End Reply.

(** ** What a connection delivers *)

(** One [conn.recv] of [handle_client], with what [json.loads(data.decode())]
    makes of the bytes and how the sends of this iteration end. A request
    object is a [Request.t] when its values have the annotated types. Of
    the other request objects, two kinds are covered: those whose
    processing raises before the bridge is touched ([Raises]), and the
    [infer] requests whose model is not a string ([ModelNotString]), which
    [infer] counts on their session before it looks at the model. A request
    object that stores an ill-typed value in the bridge (a model that is
    not a string, given to [create_session]) is outside the model. *)
Module Wire.

Inductive Payload :=
| BadJson                       (* json.JSONDecodeError *)
| Raises (e : string)           (* another exception, raised before the
                                   bridge is changed: undecodable bytes, a
                                   JSON value that is not an object, an
                                   unhashable session id *)
| ModelNotString (session_id : Z) (e : string)
                                (* an infer request on [session_id] (0 when
                                   the key is missing) whose model is a
                                   true value that is not a string: a
                                   number, a list, an object; [e] is the
                                   text of the [AttributeError] that
                                   [model.startswith] raises for it *)
| Object (request : Request.t). (* a request object *)

Inductive Chunk :=
| Eof                           (* [recv] returned no data *)
| RecvError                     (* [recv] raised *)
| Data (payload : Payload) (w : World.t)
       (send : Exc unit)        (* the first [conn.send] of the iteration *)
       (resend : Exc unit).     (* the [conn.send] of the handler, if the
                                   first one raised inside the [try] *)

End Wire.

Module ArqonInferenceBridge.

Record t := mk {
  port : Z;
  ollama : OllamaClient.t;
  petals : PetalsClient.t;
  sessions : gmap Z Session.t;
  next_session_id : Z;
  running : bool;
  default_model : string
}.

Definition RECOMMENDED_MODELS : list (string * string) :=
  [ ("fast", "llama3.2:3b");
    ("balanced", "llama3.2:latest");
    ("quality", "llama3.1:8b");
    ("code", "qwen2.5-coder:7b");
    ("reasoning", "qwen2.5:14b");
    ("large", "llama3.1:70b") ].

(** [__init__]: [ollama_up] is the outcome of the liveness probe and
    [has_petals] that of the import at start-up. *)
Definition init (port : Z) (ollama_up has_petals : bool) : t :=
  mk port (OllamaClient.mk ollama_up) (PetalsClient.mk has_petals ∅ ∅)
     ∅ 1 false "llama3.2:latest".

Definition with_sessions (self : t) (s : gmap Z Session.t) : t :=
  mk (port self) (ollama self) (petals self) s (next_session_id self)
     (running self) (default_model self).

Definition with_petals (self : t) (p : PetalsClient.t) : t :=
  mk (port self) (ollama self) p (sessions self) (next_session_id self)
     (running self) (default_model self).

Definition system_check (self : t) (w : World.t) : SystemReport.t :=
  let '(models, running, actions) :=
    if OllamaClient.available (ollama self) then
      let models := OllamaClient.list_models (ollama self) w in
      let installed := map (fun m => Py.split_head ":" (ModelInfo.name m)) models in
      (models, OllamaClient.list_running (ollama self) w,
       flat_map (fun '(use_case, model) =>
                   if Py.in_list (Py.split_head ":" model) installed then []
                   else ["Pull '" +:+ model +:+ "' for " +:+ use_case +:+ " use case"])
                RECOMMENDED_MODELS)
    else
      ([], [], ["Install Ollama: curl -fsSL https://ollama.com/install.sh | sh"]) in
  let '(pmodels, actions) :=
    if PetalsClient.available (petals self)
    then (PetalsClient.list_models (petals self), actions)
    else ([], actions ++ ["Install Petals: pip install petals transformers"]) in
  SystemReport.mk (World.timestamp w)
    (OllamaClient.available (ollama self)) models running
    (PetalsClient.available (petals self)) pmodels actions.

Definition pull_recommended_models (self : t) (w : World.t) : list (string * string) :=
  if negb (OllamaClient.available (ollama self))
  then [("error", "Ollama not available")]
  else
    let installed :=
      map (fun m => Py.split_head ":" (ModelInfo.name m))
          (OllamaClient.list_models (ollama self) w) in
    map (fun '(use_case, model) =>
           if Py.in_list (Py.split_head ":" model) installed
           then (model, "already_installed")
           else if OllamaClient.pull_model (ollama self) w model
                then (model, "success") else (model, "failed"))
        RECOMMENDED_MODELS.

Definition pull_model (self : t) (w : World.t) (model_name : string) : bool :=
  OllamaClient.pull_model (ollama self) w model_name.

Definition create_session (self : t) (w : World.t) (model : option string) : Z * t :=
  let session_id := next_session_id self in
  let next := next_session_id self + 1 in
  (session_id,
   mk (port self) (ollama self) (petals self)
      (<[session_id := Session.mk (Py.or_else model (default_model self))
                                  (World.now w) 0]> (sessions self))
      next (running self) (default_model self)).

Definition close_session (self : t) (session_id : Z) : t :=
  if decide (is_Some (sessions self !! session_id))
  then with_sessions self (delete session_id (sessions self))
  else self.

Definition no_backend_error : string :=
  "No inference backend available. Install Ollama (curl -fsSL https://ollama.com/install.sh | sh) or Petals (pip install petals transformers)".

Definition infer (self : t) (w : World.t) (request : InferenceRequest.t)
    : InferenceResponse.t * t :=
  let sid := InferenceRequest.session_id request in
  (* Determine model *)
  let '(model, self1) :=
    match sessions self !! sid with
    | Some s =>
        (Py.or_else (InferenceRequest.model request) (Session.model s),
         with_sessions self (alter Session.bump sid (sessions self)))
    | None =>
        (Py.or_else (InferenceRequest.model request) (default_model self), self)
    end in
  (* Route to appropriate backend *)
  let '(response, self2) :=
    if OllamaClient.available (ollama self1)
       && negb (Py.startswith model "meta-llama/")
    then (OllamaClient.generate (ollama self1) w model
            (InferenceRequest.prompt request)
            (InferenceRequest.max_tokens request)
            (InferenceRequest.temperature request), self1)
    else if PetalsClient.available (petals self1)
            && Py.in_list model PetalsClient.SUPPORTED_MODELS
    then let '(r, p) :=
           PetalsClient.generate (petals self1) w model
             (InferenceRequest.prompt request)
             (InferenceRequest.max_tokens request)
             (InferenceRequest.temperature request) in
         (r, with_petals self1 p)
    else (InferenceResponse.mk sid EmptyString 0 0%Q model "none"
            (Some no_backend_error), self1) in
  (InferenceResponse.set_session_id sid response, self2).

Definition process_request (self : t) (w : World.t) (request : Request.t)
    : Reply.t * t :=
  let action := default "infer" (Request.action request) in
  if String.eqb action "system_check" then
    (Reply.SystemCheck (system_check self w), self)
  else if String.eqb action "list_models" then
    (Reply.Models (OllamaClient.list_models (ollama self) w
                   ++ PetalsClient.list_models (petals self)), self)
  else if String.eqb action "pull_model" then
    let model := default EmptyString (Request.model request) in
    (Reply.Pulled (pull_model self w model) model, self)
  else if String.eqb action "pull_recommended" then
    (Reply.Recommended (pull_recommended_models self w), self)
  else if String.eqb action "create_session" then
    let '(session_id, self1) := create_session self w (Request.model request) in
    (Reply.SessionId session_id, self1)
  else if String.eqb action "close_session" then
    let session_id := default 0 (Request.session_id request) in
    (Reply.Success true, close_session self session_id)
  else if String.eqb action "infer" then
    let req :=
      InferenceRequest.mk
        (default 0 (Request.session_id request))
        (default EmptyString (Request.prompt request))
        (default 256 (Request.max_tokens request))
        (default (7 # 10)%Q (Request.temperature request))
        (Request.model request) in
    let '(response, self1) := infer self w req in
    (Reply.Response response, self1)
  else
    (Reply.Error ("Unknown action: " +:+ action), self).

(** [process_request] on an [infer] request for [session_id] whose model
    is a true value that is not a string. [infer] takes the model as given
    and counts the request on its session. With the local server available
    [model.startswith] then raises; without it the model is in no list of
    the distributed backend and the last branch answers. *)
Definition process_model_not_string (self : t) (session_id : Z) (e : string)
    : Exc Reply.t * t :=
  let self1 :=
    with_sessions self (alter Session.bump session_id (sessions self)) in
  if OllamaClient.available (ollama self1) then (Raise e, self1)
  else (Ret (Reply.Unrouted session_id), self1).

(** A run of the dispatcher over the messages of a connection, each with
    the world that answers during it. *)
Fixpoint serve (self : t) (msgs : list (World.t * Request.t)) : list Reply.t * t :=
  match msgs with
  | [] => ([], self)
  | (w, request) :: rest =>
      let '(reply, self1) := process_request self w request in
      let '(replies, self2) := serve self1 rest in
      (reply :: replies, self2)
  end.

(** [self.running = True], as [start] sets it before accepting
    connections, and [stop]. *)
Definition set_running (self : t) (running : bool) : t :=
  mk (port self) (ollama self) (petals self) (sessions self)
     (next_session_id self) running (default_model self).

Definition stop (self : t) : t := set_running self false.

(** [handle_client]: the replies sent on the connection, in order, and the
    bridge when the connection is closed. Without another thread calling
    [stop], [self.running] is what it was when the loop started. *)
Fixpoint handle_client (self : t) (chunks : list Wire.Chunk) : list Reply.t * t :=
  if negb (running self) then ([], self)
  else
    match chunks with
    | [] => ([], self)
    | Wire.Eof :: _ => ([], self)
    | Wire.RecvError :: _ => ([], self)
    | Wire.Data payload w send resend :: rest =>
        match payload with
        | Wire.BadJson =>
            match send with
            | Ret _ =>
                let '(replies, self') := handle_client self rest in
                (Reply.Error "Invalid JSON" :: replies, self')
            | Raise _ => ([], self)
            end
        | Wire.Raises e =>
            match send with
            | Ret _ =>
                let '(replies, self') := handle_client self rest in
                (Reply.Error e :: replies, self')
            | Raise _ => ([], self)
            end
        | Wire.ModelNotString session_id e =>
            let '(outcome, self1) :=
              process_model_not_string self session_id e in
            match outcome with
            | Raise e =>
                match send with
                | Ret _ =>
                    let '(replies, self') := handle_client self1 rest in
                    (Reply.Error e :: replies, self')
                | Raise _ => ([], self1)
                end
            | Ret response =>
                match send with
                | Ret _ =>
                    let '(replies, self') := handle_client self1 rest in
                    (response :: replies, self')
                | Raise e =>
                    match resend with
                    | Ret _ =>
                        let '(replies, self') := handle_client self1 rest in
                        (Reply.Error e :: replies, self')
                    | Raise _ => ([], self1)
                    end
                end
            end
        | Wire.Object request =>
            let '(response, self1) := process_request self w request in
            match send with
            | Ret _ =>
                let '(replies, self') := handle_client self1 rest in
                (response :: replies, self')
            | Raise e =>
                match resend with
                | Ret _ =>
                    let '(replies, self') := handle_client self1 rest in
                    (Reply.Error e :: replies, self')
                | Raise _ => ([], self1)
                end
            end
        end
    end.

End ArqonInferenceBridge.

(** ** The specification's wording, for comparison with the code *)

Module Spec.

(** A namespaced model identifier: a name containing the organization/model
    path separator. *)
Definition namespaced (model : string) : bool := Py.contains model "/".

(** The backend-selection rule in the specification's words; the result is
    the backend tag of the response. *)
Definition select_backend (local_available distributed_available : bool)
    (model : string) : string :=
  if local_available && negb (namespaced model) then "ollama"
  else if distributed_available
          && Py.in_list model PetalsClient.SUPPORTED_MODELS then "petals"
  else "none".

(** "Neither backend-selection rule matches", in the specification's words. *)
Definition no_rule_matches (local_available distributed_available : bool)
    (model : string) : bool :=
  (negb local_available || namespaced model)
  && (negb distributed_available
      || negb (Py.in_list model PetalsClient.SUPPORTED_MODELS)).

(** [resolve_model(session_id, explicit_model)] in the specification's words:
    the resolved model and the registry afterwards. *)
Definition resolve_model (sessions : gmap Z Session.t) (default_model : string)
    (session_id : Z) (explicit_model : option string)
    : string * gmap Z Session.t :=
  match explicit_model with
  | Some m => (m, sessions)
  | None =>
      match sessions !! session_id with
      | Some s => (Session.model s, alter Session.bump session_id sessions)
      | None => (default_model, sessions)
      end
  end.

(** The response invariant in the specification's words. *)
Definition exactly_one (r : InferenceResponse.t) : Prop :=
  (InferenceResponse.text r <> EmptyString /\ InferenceResponse.error r = None)
  \/ (InferenceResponse.error r <> None /\ InferenceResponse.text r = EmptyString).

End Spec.

(** ** What the code does, in the same terms *)

(** The model that [infer] determines for a request. *)
Definition effective_model (self : ArqonInferenceBridge.t)
    (request : InferenceRequest.t) : string :=
  Py.or_else (InferenceRequest.model request)
    match ArqonInferenceBridge.sessions self
          !! InferenceRequest.session_id request with
    | Some s => Session.model s
    | None => ArqonInferenceBridge.default_model self
    end.

(** What every response of the bridge satisfies: an error comes with no
    text, no tokens and a zero rate. *)
Definition error_means_empty (r : InferenceResponse.t) : Prop :=
  InferenceResponse.error r = None
  \/ (InferenceResponse.text r = EmptyString
      /\ InferenceResponse.tokens_generated r = 0
      /\ InferenceResponse.tokens_per_second r = 0%Q).

(** The registry invariant: the counter is positive and above every live id. *)
Definition ids_below_counter (self : ArqonInferenceBridge.t) : Prop :=
  1 <= ArqonInferenceBridge.next_session_id self
  /\ forall j, is_Some (ArqonInferenceBridge.sessions self !! j) ->
               1 <= j < ArqonInferenceBridge.next_session_id self.

(** The session ids handed out in a list of replies. *)
Definition created_ids (replies : list Reply.t) : list Z :=
  omap (fun reply =>
          match reply with
          | Reply.SessionId i => Some i
          | _ => None
          end) replies.

(** A run of inference requests, each with its world. *)
Fixpoint infer_all (self : ArqonInferenceBridge.t)
    (calls : list (World.t * InferenceRequest.t)) : ArqonInferenceBridge.t :=
  match calls with
  | [] => self
  | (w, request) :: rest =>
      infer_all (ArqonInferenceBridge.infer self w request).2 rest
  end.

(** ** Concrete worlds and states for the examples *)

Module Sample.

(** Every external call fails; one second passes during a generation. *)
Definition offline : World.t :=
  {| World.clock_start := 0%Q; World.clock_end := 1%Q; World.now := 0%Q;
     World.timestamp := "2024-01-01 00:00:00";
     World.post_generate := fun _ _ _ _ => Raise "connection refused";
     World.get_tags := Raise "connection refused";
     World.get_ps := Raise "connection refused";
     World.post_pull := fun _ => false;
     World.tokenizer_from_pretrained := fun _ => false;
     World.model_from_pretrained := fun _ => false;
     World.decode_generate := fun _ _ _ _ => Raise "no route to swarm";
     World.encode_len := fun _ _ => Raise "no route to swarm" |}.

(** Both backends answer, each echoing the prompt followed by [" there"];
    [t0] and [t1] are the clock readings around the generation. *)
Definition echoing (t0 t1 : Q) : World.t :=
  {| World.clock_start := t0; World.clock_end := t1; World.now := t0;
     World.timestamp := "2024-01-01 00:00:00";
     World.post_generate := fun _ prompt _ _ =>
       Ret {| World.response := Some (prompt +:+ " there");
              World.eval_count := Some 2 |};
     World.get_tags := Ret [];
     World.get_ps := Ret [];
     World.post_pull := fun _ => true;
     World.tokenizer_from_pretrained := fun _ => true;
     World.model_from_pretrained := fun _ => true;
     World.decode_generate := fun _ prompt _ _ => Ret (prompt +:+ " there");
     World.encode_len := fun _ text => Ret (Z.of_nat (String.length text)) |}.

(** The local server answers with a completion and a token count of
    [2 ** 1024], an int that no float holds. *)
Definition oversized : World.t :=
  {| World.clock_start := 0%Q; World.clock_end := 1%Q; World.now := 0%Q;
     World.timestamp := "2024-01-01 00:00:00";
     World.post_generate := fun _ prompt _ _ =>
       Ret {| World.response := Some (prompt +:+ " there");
              World.eval_count := Some (2 ^ 1024) |};
     World.get_tags := Ret [];
     World.get_ps := Ret [];
     World.post_pull := fun _ => true;
     World.tokenizer_from_pretrained := fun _ => true;
     World.model_from_pretrained := fun _ => true;
     World.decode_generate := fun _ prompt _ _ => Ret (prompt +:+ " there");
     World.encode_len := fun _ text => Ret (Z.of_nat (String.length text)) |}.

(** Both backends answer with an empty completion: the local server
    replies [{"response": "", "eval_count": 0}], the distributed model adds
    no token to the prompt. *)
Definition blank : World.t :=
  {| World.clock_start := 0%Q; World.clock_end := 1%Q; World.now := 0%Q;
     World.timestamp := "2024-01-01 00:00:00";
     World.post_generate := fun _ _ _ _ =>
       Ret {| World.response := Some EmptyString; World.eval_count := Some 0 |};
     World.get_tags := Ret [];
     World.get_ps := Ret [];
     World.post_pull := fun _ => true;
     World.tokenizer_from_pretrained := fun _ => true;
     World.model_from_pretrained := fun _ => true;
     World.decode_generate := fun _ prompt _ _ => Ret prompt;
     World.encode_len := fun _ _ => Ret 0 |}.

(** Bridges with both backends up, with only the local one, and with none. *)
Definition both_up : ArqonInferenceBridge.t :=
  ArqonInferenceBridge.init 8765 true true.
Definition local_only : ArqonInferenceBridge.t :=
  ArqonInferenceBridge.init 8765 true false.
Definition none_up : ArqonInferenceBridge.t :=
  ArqonInferenceBridge.init 8765 false false.

(** [both_up] after [create_session("M")]: session 1 is live. *)
Definition with_session : ArqonInferenceBridge.t :=
  (ArqonInferenceBridge.create_session both_up offline (Some "M")).2.

(** [InferenceRequest(session_id, "Hi", model=model)]. *)
Definition request (session_id : Z) (model : option string) : InferenceRequest.t :=
  InferenceRequest.mk session_id "Hi" 256 (7 # 10)%Q model.

End Sample.

(** ** [cpp_kernel/inference/petals_bridge.py]: the single-model bridge *)

Module PetalsBridge.

(** What the libraries and the swarm answer during one message. *)
Record Swarm := {
  tokenizer_from_pretrained : string -> bool;
  model_from_pretrained : string -> bool;
  (** for a model name, prompt, token limit, temperature and [do_sample]:
      the decoded first output with its number of tokens and the number of
      tokens of the prompt, or the exception raised on the way *)
  run : string -> string -> Z -> Q -> bool -> Exc (string * Z * Z)
}.

(** [PETALS_AVAILABLE] is the module-level flag set at import; [model] and
    [tokenizer] say whether the attribute holds an object or [None]. *)
Record t := mk {
  PETALS_AVAILABLE : bool;
  model_name : string;
  port : Z;
  model : bool;
  tokenizer : bool;
  running : bool
}.

Definition init (petals_available : bool) (model_name : string) (port : Z) : t :=
  mk petals_available model_name port false false false.

(** The dict that [generate] returns. *)
Record Result := {
  text : string;
  tokens : Z;
  error : option string
}.

Definition load_model (self : t) (sw : Swarm) : bool * t :=
  if negb (PETALS_AVAILABLE self) then (false, self)
  else if negb (tokenizer_from_pretrained sw (model_name self)) then (false, self)
  else
    let self1 := mk (PETALS_AVAILABLE self) (model_name self) (port self)
                    (model self) true (running self) in
    if negb (model_from_pretrained sw (model_name self)) then (false, self1)
    else (true, mk (PETALS_AVAILABLE self) (model_name self) (port self)
                   true true (running self)).

Definition generate (self : t) (sw : Swarm) (prompt : string)
    (max_tokens : Z) (temperature : Q) : Result :=
  if negb (model self) || negb (tokenizer self)
  then {| error := Some "Model not loaded"; tokens := 0; text := EmptyString |}
  else
    match run sw (model_name self) prompt max_tokens temperature
              (Py.gt temperature 0) with
    | Ret (generated_text, n_outputs, n_inputs) =>
        {| text := Py.strip (Py.slice_from (String.length prompt) generated_text);
           tokens := n_outputs - n_inputs;
           error := None |}
    | Raise e => {| error := Some e; tokens := 0; text := EmptyString |}
    end.

(** The request object of a message, restricted to the keys that
    [handle_client] reads; [None] is a missing key. *)
Record Request := {
  type : option string;
  prompt : option string;
  max_tokens : option Z;
  temperature : option Q
}.

Inductive Reply :=
| Generated (result : Result)
| Status (model : string) (ready petals_available : bool)
| ShuttingDown
| InvalidJson.

Inductive Payload :=
| BadJson                     (* json.JSONDecodeError *)
| Raises (e : string)         (* another exception: undecodable bytes, or a
                                 JSON value that is not an object *)
| Object (request : Request).

Inductive Chunk :=
| Eof                         (* [recv] returned no data *)
| RecvError                   (* [recv] raised *)
| Data (payload : Payload) (sw : Swarm)
       (send_ok : bool).      (* whether the [send] of the iteration returns *)

Definition set_running (self : t) (running : bool) : t :=
  mk (PETALS_AVAILABLE self) (model_name self) (port self) (model self)
     (tokenizer self) running.

Definition stop (self : t) : t := set_running self false.

(** [handle_client]: the replies sent on the connection, in order, and the
    bridge when the connection is closed. Only [json.JSONDecodeError] is
    handled inside the loop; any other exception ends the connection. *)
Fixpoint handle_client (self : t) (chunks : list Chunk) : list Reply * t :=
  if negb (running self) then ([], self)
  else
    match chunks with
    | [] => ([], self)
    | Eof :: _ => ([], self)
    | RecvError :: _ => ([], self)
    | Data payload sw send_ok :: rest =>
        match payload with
        | BadJson =>
            if send_ok
            then let '(replies, self') := handle_client self rest in
                 (InvalidJson :: replies, self')
            else ([], self)
        | Raises _ => ([], self)
        | Object request =>
            if decide (type request = Some "generate") then
              let result :=
                generate self sw (default EmptyString (prompt request))
                  (default 256 (max_tokens request))
                  (default (7 # 10)%Q (temperature request)) in
              if send_ok
              then let '(replies, self') := handle_client self rest in
                   (Generated result :: replies, self')
              else ([], self)
            else if decide (type request = Some "status") then
              if send_ok
              then let '(replies, self') := handle_client self rest in
                   (Status (model_name self) (model self)
                      (PETALS_AVAILABLE self) :: replies, self')
              else ([], self)
            else if decide (type request = Some "shutdown") then
              if send_ok then ([ShuttingDown], set_running self false)
              else ([], set_running self false)
            else handle_client self rest
        end
    end.

End PetalsBridge.

(** ** [inference_bridge/system_check.py]: the GPU probe *)

Module SystemCheck.

(** What the host answers: [nvidia-smi]'s return code and output, and
    [torch.cuda.is_available()], or the exception raised on the way (the
    program or the package is missing, a timeout). *)
Record Host := {
  nvidia_smi : Exc (Z * string);
  torch_cuda : Exc bool
}.

Record Gpu := {
  name : string;
  vram : string;
  compute : string
}.

Record GpuReport := {
  nvidia : bool;
  cuda_available : bool;
  gpus : list Gpu
}.

(** The body of the loop over the lines of [nvidia-smi]'s output: the entry
    appended for a line, if any. *)
Definition gpu_of_line (line : string) : list Gpu :=
  match line with
  | EmptyString => []
  | _ =>
      let parts := map Py.strip (Py.split_on "," line) in
      if (2 <=? length parts)%nat then
        [ {| name := nth 0 parts EmptyString;
             vram := if (1 <? length parts)%nat then nth 1 parts EmptyString
                     else "unknown";
             compute := if (2 <? length parts)%nat then nth 2 parts EmptyString
                        else "unknown" |} ]
      else []
  end.

Definition check_gpu (host : Host) : GpuReport :=
  let '(nvidia, gpus) :=
    match nvidia_smi host with
    | Ret (returncode, stdout) =>
        if returncode =? 0
        then (true, flat_map gpu_of_line (Py.split_on "010" (Py.strip stdout)))
        else (false, [])
    | Raise _ => (false, [])
    end in
  let cuda_available :=
    match torch_cuda host with
    | Ret b => b
    | Raise _ => false
    end in
  {| nvidia := nvidia; cuda_available := cuda_available; gpus := gpus |}.

End SystemCheck.

(** ** Counting and projections used in the statements *)

(** The number of calls of a run that address a session. *)
Definition calls_on (sid : Z) (calls : list (World.t * InferenceRequest.t)) : Z :=
  Z.of_nat (length (filter (fun c => InferenceRequest.session_id c.2 = sid) calls)).

(** Every loaded model of the distributed client has its tokenizer. *)
Definition tokenizers_cover_models (p : PetalsClient.t) : Prop :=
  PetalsClient.models p ⊆ PetalsClient.tokenizers p.

(** The request objects among the chunks of a connection, each with its
    world. *)
Definition objects (chunks : list Wire.Chunk) : list (World.t * Request.t) :=
  omap (fun c =>
          match c with
          | Wire.Data (Wire.Object request) w _ _ => Some (w, request)
          | _ => None
          end) chunks.

(** A chunk that carries data and whose reply is sent at once. *)
Definition delivered (c : Wire.Chunk) : bool :=
  match c with
  | Wire.Data _ _ (Ret _) _ => true
  | _ => false
  end.

(** A chunk other than an [infer] request whose model is not a string. *)
Definition model_is_string (c : Wire.Chunk) : bool :=
  match c with
  | Wire.Data (Wire.ModelNotString _ _) _ _ _ => false
  | _ => true
  end.

(** What the messages that reach the registry do to the bridge: a request
    object is dispatched; an [infer] request whose model is not a string
    is counted on its session and answered with the error that it raises
    or, when nothing raises, with the response of the last branch. *)
Inductive Step :=
| Dispatch (w : World.t) (request : Request.t)
| Count (session_id : Z) (e : string).

Definition steps (chunks : list Wire.Chunk) : list Step :=
  omap (fun c =>
          match c with
          | Wire.Data (Wire.Object request) w _ _ => Some (Dispatch w request)
          | Wire.Data (Wire.ModelNotString session_id e) _ _ _ =>
              Some (Count session_id e)
          | _ => None
          end) chunks.

Fixpoint replay (self : ArqonInferenceBridge.t) (todo : list Step)
    : list Reply.t * ArqonInferenceBridge.t :=
  match todo with
  | [] => ([], self)
  | Dispatch w request :: rest =>
      let '(reply, self1) :=
        ArqonInferenceBridge.process_request self w request in
      let '(replies, self2) := replay self1 rest in
      (reply :: replies, self2)
  | Count session_id e :: rest =>
      let '(outcome, self1) :=
        ArqonInferenceBridge.process_model_not_string self session_id e in
      let '(replies, self2) := replay self1 rest in
      (match outcome with
       | Ret reply => reply
       | Raise e => Reply.Error e
       end :: replies, self2)
  end.

(** The replies that a connection sees when the messages that reach the
    registry are answered by [answers], in order, and every other message
    by the error reply of its kind. *)
Fixpoint interleave (chunks : list Wire.Chunk) (answers : list Reply.t)
    : list Reply.t :=
  match chunks with
  | [] => []
  | Wire.Data Wire.BadJson _ _ _ :: rest =>
      Reply.Error "Invalid JSON" :: interleave rest answers
  | Wire.Data (Wire.Raises e) _ _ _ :: rest =>
      Reply.Error e :: interleave rest answers
  | Wire.Data _ _ _ _ :: rest =>
      match answers with
      | answer :: answers' => answer :: interleave rest answers'
      | [] => []
      end
  | _ :: rest => interleave rest answers
  end.

(** A chunk of the single-model bridge that carries a shutdown request. *)
Definition shutdown_request (c : PetalsBridge.Chunk) : bool :=
  match c with
  | PetalsBridge.Data (PetalsBridge.Object request) _ _ =>
      bool_decide (PetalsBridge.type request = Some "shutdown")
  | _ => false
  end.

(** A chunk of the single-model bridge that carries a request object whose
    type is none of ["generate"], ["status"] and ["shutdown"]. *)
Definition untyped (c : PetalsBridge.Chunk) : bool :=
  match c with
  | PetalsBridge.Data (PetalsBridge.Object request) _ _ =>
      negb (bool_decide (PetalsBridge.type request = Some "generate"))
      && negb (bool_decide (PetalsBridge.type request = Some "status"))
      && negb (bool_decide (PetalsBridge.type request = Some "shutdown"))
  | _ => false
  end.

(** The number of occurrences of a character in a string. *)
Fixpoint count_char (sep : ascii) (s : string) : nat :=
  match s with
  | EmptyString => 0
  | String c s' => (if Ascii.eqb c sep then 1 else 0) + count_char sep s'
  end.

(** A string without whitespace at either end. *)
Definition trimmed (s : string) : Prop :=
  (forall c rest, s = String c rest -> Py.isspace c = false)
  /\ (forall front c, s = front +:+ String c EmptyString -> Py.isspace c = false).

(** * Properties *)

(** ** Python primitives *)

Lemma startswith_app (p q s : string) :
  Py.startswith s (p +:+ q) = true ->
  Py.startswith s p = true /\ Py.startswith (Py.slice_from (String.length p) s) q = true.
Proof.
  revert s. induction p as [|c p IH]; intros s H.
  - split; [reflexivity | exact H].
  - change (String c p +:+ q) with (String c (p +:+ q)) in H.
    destruct s as [|d s]; simpl in *; [discriminate|].
    destruct (Ascii.eqb c d); [|discriminate]. apply IH, H.
Qed.

Lemma contains_slice_from (n : nat) (s sub : string) :
  Py.contains (Py.slice_from n s) sub = true -> Py.contains s sub = true.
Proof.
  revert s. induction n as [|n IH]; intros s H; simpl in *; [assumption|].
  destruct s as [|d s]; [assumption|].
  simpl. rewrite (IH _ H). apply orb_true_r.
Qed.

Lemma startswith_contains (s sub : string) :
  Py.startswith s sub = true -> Py.contains s sub = true.
Proof. intros H. destruct s; simpl in *; rewrite H; reflexivity. Qed.

(** A name with the ["meta-llama/"] prefix contains the path separator, so
    a name without separator never has the prefix. *)
Lemma meta_llama_is_namespaced (model : string) :
  Py.startswith model "meta-llama/" = true -> Spec.namespaced model = true.
Proof.
  intros H. change "meta-llama/" with ("meta-llama" +:+ "/") in H.
  apply startswith_app in H as [_ H].
  unfold Spec.namespaced. eapply contains_slice_from, startswith_contains, H.
Qed.

Lemma slice_from_app (p rest : string) :
  Py.slice_from (String.length p) (p +:+ rest) = rest.
Proof.
  induction p as [|c p IH]; [reflexivity|].
  change (String c p +:+ rest) with (String c (p +:+ rest)). exact IH.
Qed.

Lemma gt_zero_iff (e : Q) : Py.gt e 0 = true <-> (0 < e)%Q.
Proof.
  unfold Py.gt. rewrite negb_true_iff. split.
  - intros H. apply Qnot_le_lt. intros Hle.
    apply Qle_bool_iff in Hle. congruence.
  - intros H. destruct (Qle_bool e 0) eqn:E; [|reflexivity].
    apply Qle_bool_iff in E. exfalso. eapply Qlt_not_le; eassumption.
Qed.

(** Behind the guard [elapsed > 0] the division never raises. *)
Lemma guarded_rate (tokens : Z) (elapsed : Q) :
  (if Py.gt elapsed 0 then Py.truediv (inject_Z tokens) elapsed else Ret 0%Q)
  = Ret (if Py.gt elapsed 0 then (inject_Z tokens / elapsed)%Q else 0%Q).
Proof.
  destruct (Py.gt elapsed 0) eqn:G; [|reflexivity].
  apply gt_zero_iff in G. unfold Py.truediv.
  destruct (Qeq_bool elapsed 0) eqn:E; [|reflexivity].
  apply Qeq_bool_iff in E. rewrite E in G. exfalso. exact (Qlt_irrefl 0 G).
Qed.

(** Case analysis on every [if] of the goal. *)
Ltac case_ifs :=
  repeat match goal with |- context [if ?b then _ else _] => destruct b end.

(** ** The registry half of [infer] *)

Section Infer.

Import ArqonInferenceBridge.

Lemma alter_absent (f : Session.t -> Session.t) (sid : Z) (m : gmap Z Session.t) :
  m !! sid = None -> alter f sid m = m.
Proof.
  intros H. apply map_eq. intros j. rewrite lookup_alter.
  case_decide; [subst; rewrite H|]; reflexivity.
Qed.

Lemma with_sessions_same (self : t) : with_sessions self (sessions self) = self.
Proof. destruct self; reflexivity. Qed.

(** [infer] in one piece: the registry update, then the routing. *)
Lemma infer_unfold (self : t) (w : World.t) (request : InferenceRequest.t) :
  let sid := InferenceRequest.session_id request in
  let model := effective_model self request in
  let self1 := with_sessions self (alter Session.bump sid (sessions self)) in
  let generate {R} (f : string -> string -> Z -> Q -> R) :=
    f model (InferenceRequest.prompt request)
      (InferenceRequest.max_tokens request)
      (InferenceRequest.temperature request) in
  infer self w request =
    if OllamaClient.available (ollama self)
       && negb (Py.startswith model "meta-llama/")
    then (InferenceResponse.set_session_id sid
            (generate (OllamaClient.generate (ollama self) w)), self1)
    else if PetalsClient.available (petals self)
            && Py.in_list model PetalsClient.SUPPORTED_MODELS
    then (InferenceResponse.set_session_id sid
            (generate (PetalsClient.generate (petals self) w)).1,
          with_petals self1 (generate (PetalsClient.generate (petals self) w)).2)
    else (InferenceResponse.mk sid EmptyString 0 0%Q model "none"
            (Some no_backend_error), self1).
Proof.
  intros sid model self1 generate.
  unfold infer, generate, self1, model, effective_model. fold sid.
  destruct (sessions self !! sid) as [s|] eqn:L; simpl.
  - case_ifs;
      try reflexivity.
    destruct (PetalsClient.generate _ _ _ _ _ _); reflexivity.
  - rewrite (alter_absent _ _ _ L), with_sessions_same.
    case_ifs;
      try reflexivity.
    destruct (PetalsClient.generate _ _ _ _ _ _); reflexivity.
Qed.

End Infer.

(** ** What the two adapters always return *)

Lemma ollama_generate_cases (self : OllamaClient.t) (w : World.t)
    (model prompt : string) (max_tokens : Z) (temperature : Q) :
  let elapsed := (World.clock_end w - World.clock_start w)%Q in
  OllamaClient.generate self w model prompt max_tokens temperature =
    match World.post_generate w model prompt max_tokens temperature with
    | Raise e => InferenceResponse.mk 0 EmptyString 0 0%Q model "ollama" (Some e)
    | Ret data =>
        let response_text := default EmptyString (World.response data) in
        let eval_count :=
          default (Z.of_nat (length (Py.split response_text)))
                  (World.eval_count data) in
        if Py.gt elapsed 0
           && match World.eval_count data with
              | Some n => Py.float_overflows n
              | None => false
              end
        then InferenceResponse.mk 0 EmptyString 0 0%Q model "ollama"
               (Some "int too large to convert to float")
        else InferenceResponse.mk 0 response_text eval_count
               (if Py.gt elapsed 0 then (inject_Z eval_count / elapsed)%Q
                else 0%Q)
               model "ollama" None
    end.
Proof.
  unfold OllamaClient.generate, OllamaClient.generate_try.
  destruct (World.post_generate _ _ _ _ _) as [e|data]; simpl; [reflexivity|].
  pose proof (guarded_rate
    (default (Z.of_nat (length (Py.split (default EmptyString
                                            (World.response data)))))
             (World.eval_count data))
    (World.clock_end w - World.clock_start w)) as G.
  destruct (Py.gt (World.clock_end w - World.clock_start w) 0) eqn:Hgt;
    [|reflexivity].
  destruct (World.eval_count data) as [n|]; cbn [andb from_option id] in *.
  - unfold Py.int_truediv. destruct (Py.float_overflows n); [reflexivity|].
    rewrite G. reflexivity.
  - rewrite G. reflexivity.
Qed.

(** [OllamaClient.generate] either reports a failure, with no text, or
    returns the text and the count of the server's reply. *)
Lemma ollama_generate_outcomes (self : OllamaClient.t) (w : World.t)
    (model prompt : string) (max_tokens : Z) (temperature : Q) :
  let elapsed := (World.clock_end w - World.clock_start w)%Q in
  let r := OllamaClient.generate self w model prompt max_tokens temperature in
  (exists e, r = InferenceResponse.mk 0 EmptyString 0 0%Q model "ollama" (Some e))
  \/ (exists data,
        World.post_generate w model prompt max_tokens temperature = Ret data
        /\ r = InferenceResponse.mk 0
                 (default EmptyString (World.response data))
                 (default (Z.of_nat (length (Py.split
                             (default EmptyString (World.response data)))))
                          (World.eval_count data))
                 (if Py.gt elapsed 0
                  then (inject_Z
                          (default (Z.of_nat (length (Py.split
                                      (default EmptyString (World.response data)))))
                                   (World.eval_count data)) / elapsed)%Q
                  else 0%Q)
                 model "ollama" None).
Proof.
  intros elapsed r. subst r. rewrite ollama_generate_cases. fold elapsed.
  destruct (World.post_generate _ _ _ _ _) as [e|data]; [eauto|].
  cbv zeta.
  destruct (Py.gt elapsed 0 && _); [eauto|]. right. exists data. auto.
Qed.

(** The [try] part of [PetalsClient.generate], once the model is loaded. *)
Lemma petals_try_cases (self : PetalsClient.t) (w : World.t)
    (model prompt : string) (max_tokens : Z) (temperature : Q) :
  let elapsed := (World.clock_end w - World.clock_start w)%Q in
  PetalsClient.generate_try self w model prompt max_tokens temperature
    (World.clock_start w) =
    if decide (model ∈ PetalsClient.tokenizers self) then
      if decide (model ∈ PetalsClient.models self) then
        match World.decode_generate w model prompt max_tokens temperature with
        | Raise e => Raise e
        | Ret raw =>
            let text := Py.slice_from (String.length prompt) raw in
            match World.encode_len w model text with
            | Raise e => Raise e
            | Ret tokens =>
                Ret (InferenceResponse.mk 0 text tokens
                       (if Py.gt elapsed 0 then (inject_Z tokens / elapsed)%Q
                        else 0%Q)
                       model "petals" None)
            end
        end
      else Raise ("'" +:+ model +:+ "'")
    else Raise ("'" +:+ model +:+ "'").
Proof.
  unfold PetalsClient.generate_try.
  repeat case_decide; simpl; try reflexivity.
  destruct (World.decode_generate _ _ _ _ _) as [e|raw]; simpl; [reflexivity|].
  destruct (World.encode_len _ _ _) as [e|tokens]; simpl; [reflexivity|].
  rewrite guarded_rate. reflexivity.
Qed.

(** [PetalsClient.generate] either reports a failure, with no text, or
    returns the sliced text of a successful run on the bridge it leaves. *)
Lemma petals_generate_cases (self : PetalsClient.t) (w : World.t)
    (model prompt : string) (max_tokens : Z) (temperature : Q) :
  let elapsed := (World.clock_end w - World.clock_start w)%Q in
  let out := PetalsClient.generate self w model prompt max_tokens temperature in
  (exists e, out.1 = InferenceResponse.mk 0 EmptyString 0 0%Q model "petals" (Some e))
  \/ (exists raw tokens,
        World.decode_generate w model prompt max_tokens temperature = Ret raw
        /\ World.encode_len w model (Py.slice_from (String.length prompt) raw)
           = Ret tokens
        /\ model ∈ PetalsClient.models out.2
        /\ out.1 = InferenceResponse.mk 0
                     (Py.slice_from (String.length prompt) raw) tokens
                     (if Py.gt elapsed 0 then (inject_Z tokens / elapsed)%Q
                      else 0%Q)
                     model "petals" None).
Proof.
  intros elapsed out.
  assert (Hrun : forall self1 : PetalsClient.t,
    model ∈ PetalsClient.models self1 ->
    let o := match PetalsClient.generate_try self1 w model prompt max_tokens
                     temperature (World.clock_start w) with
             | Ret r => (r, self1)
             | Raise e => (InferenceResponse.mk 0 EmptyString 0 0%Q model
                             "petals" (Some e), self1)
             end in
    (exists e, o.1 = InferenceResponse.mk 0 EmptyString 0 0%Q model "petals" (Some e))
    \/ (exists raw tokens,
          World.decode_generate w model prompt max_tokens temperature = Ret raw
          /\ World.encode_len w model (Py.slice_from (String.length prompt) raw)
             = Ret tokens
          /\ model ∈ PetalsClient.models o.2
          /\ o.1 = InferenceResponse.mk 0
                     (Py.slice_from (String.length prompt) raw) tokens
                     (if Py.gt elapsed 0 then (inject_Z tokens / elapsed)%Q
                      else 0%Q)
                     model "petals" None)).
  { intros self1 Hin. rewrite petals_try_cases.
    repeat case_decide; simpl; eauto.
    destruct (World.decode_generate _ _ _ _ _) as [e|raw]; simpl; eauto.
    destruct (World.encode_len _ _ _) as [e|tokens] eqn:E; simpl; eauto.
    right. exists raw, tokens. auto. }
  subst out. unfold PetalsClient.generate.
  case_decide as Hin; [apply Hrun, Hin|].
  unfold PetalsClient.load_model.
  destruct (PetalsClient.available self); simpl; eauto.
  case_decide; [contradiction|].
  destruct (World.tokenizer_from_pretrained w model); simpl; eauto.
  destruct (World.model_from_pretrained w model); simpl; eauto.
  apply Hrun. simpl. set_solver.
Qed.

Lemma ollama_generate_backend (self : OllamaClient.t) (w : World.t)
    (model prompt : string) (max_tokens : Z) (temperature : Q) :
  InferenceResponse.backend
    (OllamaClient.generate self w model prompt max_tokens temperature) = "ollama"
  /\ InferenceResponse.model_used
       (OllamaClient.generate self w model prompt max_tokens temperature) = model.
Proof.
  destruct (ollama_generate_outcomes self w model prompt max_tokens temperature)
    as [[e ->]|(data & _ & ->)]; split; reflexivity.
Qed.

Lemma petals_generate_backend (self : PetalsClient.t) (w : World.t)
    (model prompt : string) (max_tokens : Z) (temperature : Q) :
  InferenceResponse.backend
    (PetalsClient.generate self w model prompt max_tokens temperature).1 = "petals"
  /\ InferenceResponse.model_used
       (PetalsClient.generate self w model prompt max_tokens temperature).1 = model.
Proof.
  destruct (petals_generate_cases self w model prompt max_tokens temperature)
    as [[e ->]|(raw & tokens & _ & _ & _ & ->)]; split; reflexivity.
Qed.

(** ** Backend selection *)

Section Routing.

Import ArqonInferenceBridge.

(** C1, as stated, fails. With both backends up, the supported model
    ["mistralai/Mistral-7B-Instruct-v0.3"] is namespaced, so the rule in the
    specification's words selects the distributed adapter; [infer] sends it
    to the local adapter, because the name does not start with
    ["meta-llama/"]. *)
Lemma namespaced_model_routed_locally :
  let model := "mistralai/Mistral-7B-Instruct-v0.3" in
  let out := infer Sample.both_up (Sample.echoing 0 1)
               (Sample.request 0 (Some model)) in
  OllamaClient.available (ollama Sample.both_up) = true
  /\ PetalsClient.available (petals Sample.both_up) = true
  /\ effective_model Sample.both_up (Sample.request 0 (Some model)) = model
  /\ Spec.namespaced model = true
  /\ Py.in_list model PetalsClient.SUPPORTED_MODELS = true
  /\ Spec.select_backend true true model = "petals"
  /\ InferenceResponse.backend out.1 = "ollama".
Proof. vm_compute. repeat split; reflexivity. Qed.

(** C1, amended: the naming convention that [infer] tests is the prefix
    ["meta-llama/"]. If the local adapter is available and the effective
    model does not start with that prefix, the response is the local
    adapter's, stamped with the request's session id; otherwise, if the
    distributed adapter is available and the model is in
    [SUPPORTED_MODELS], it is the distributed adapter's. In particular a
    model name without path separator goes to an available local adapter. *)
Theorem infer_routing (self : t) (w : World.t) (request : InferenceRequest.t) :
  let sid := InferenceRequest.session_id request in
  let model := effective_model self request in
  let prompt := InferenceRequest.prompt request in
  let max_tokens := InferenceRequest.max_tokens request in
  let temperature := InferenceRequest.temperature request in
  let local :=
    OllamaClient.available (ollama self)
    && negb (Py.startswith model "meta-llama/") in
  let response := (infer self w request).1 in
  (local = true ->
     response = InferenceResponse.set_session_id sid
                  (OllamaClient.generate (ollama self) w model prompt
                     max_tokens temperature)
     /\ InferenceResponse.backend response = "ollama")
  /\ (local = false ->
      PetalsClient.available (petals self) = true ->
      Py.in_list model PetalsClient.SUPPORTED_MODELS = true ->
      response = InferenceResponse.set_session_id sid
                   (PetalsClient.generate (petals self) w model prompt
                      max_tokens temperature).1
      /\ InferenceResponse.backend response = "petals")
  /\ (OllamaClient.available (ollama self) = true ->
      Spec.namespaced model = false ->
      InferenceResponse.backend response = "ollama").
Proof.
  intros sid model prompt max_tokens temperature local response.
  assert (Hlocal : local = true ->
     response = InferenceResponse.set_session_id sid
                  (OllamaClient.generate (ollama self) w model prompt
                     max_tokens temperature)
     /\ InferenceResponse.backend response = "ollama").
  { intros Hl. subst response. rewrite infer_unfold.
    fold sid model prompt max_tokens temperature local. rewrite Hl. simpl.
    split; [reflexivity|]. apply ollama_generate_backend. }
  split; [exact Hlocal|]. split.
  - intros Hl Hp Hs. subst response. rewrite infer_unfold.
    fold sid model prompt max_tokens temperature local.
    rewrite Hl, Hp, Hs. simpl.
    split; [reflexivity|]. apply petals_generate_backend.
  - intros Ha Hn. apply Hlocal. subst local. rewrite Ha.
    destruct (Py.startswith model "meta-llama/") eqn:E; [|reflexivity].
    apply meta_llama_is_namespaced in E. congruence.
Qed.

(** [infer_routing] at work: the default model goes to the local adapter;
    a supported ["meta-llama/"] model goes to the distributed adapter when
    the local one is down. *)
Lemma infer_routing_witness :
  InferenceResponse.backend
    (infer Sample.both_up (Sample.echoing 0 1) (Sample.request 0 None)).1
    = "ollama"
  /\ InferenceResponse.backend
       (infer (init 8765 false true) (Sample.echoing 0 1)
          (Sample.request 0 (Some "meta-llama/Meta-Llama-3.1-70B-Instruct"))).1
     = "petals".
Proof.
  split.
  - apply (proj1 (infer_routing Sample.both_up (Sample.echoing 0 1)
                    (Sample.request 0 None))).
    reflexivity.
  - apply (proj1 (proj2 (infer_routing (init 8765 false true)
                           (Sample.echoing 0 1)
                           (Sample.request 0
                              (Some "meta-llama/Meta-Llama-3.1-70B-Instruct")))));
      reflexivity.
Defined.

(** C5, as stated, fails for the same reason. With the local adapter up and
    the distributed one down, the unsupported namespaced model
    ["acme/Unknown-1B"] matches neither rule in the specification's words,
    yet [infer] sends it to the local adapter instead of answering with the
    ["none"] backend. *)
Lemma namespaced_model_not_refused :
  let model := "acme/Unknown-1B" in
  let out := infer Sample.local_only Sample.offline
               (Sample.request 0 (Some model)) in
  effective_model Sample.local_only (Sample.request 0 (Some model)) = model
  /\ Spec.no_rule_matches
       (OllamaClient.available (ollama Sample.local_only))
       (PetalsClient.available (petals Sample.local_only)) model = true
  /\ InferenceResponse.backend out.1 = "ollama"
  /\ InferenceResponse.backend out.1 <> "none".
Proof. vm_compute. repeat split; try reflexivity. discriminate. Qed.

(** C5, amended: whenever the local adapter is unavailable or the effective
    model starts with ["meta-llama/"], and the distributed adapter is
    unavailable or the model is not in [SUPPORTED_MODELS], [infer] returns
    (it does not raise) the ["none"]-backend response: empty text, no
    tokens, zero rate, the request's session id, the effective model, and
    the fixed non-empty error that names the missing backends and how to
    install them. *)
Theorem infer_no_backend (self : t) (w : World.t) (request : InferenceRequest.t) :
  let model := effective_model self request in
  (negb (OllamaClient.available (ollama self))
   || Py.startswith model "meta-llama/") = true ->
  (negb (PetalsClient.available (petals self))
   || negb (Py.in_list model PetalsClient.SUPPORTED_MODELS)) = true ->
  (infer self w request).1 =
    InferenceResponse.mk (InferenceRequest.session_id request) EmptyString 0 0%Q
      model "none" (Some no_backend_error)
  /\ no_backend_error <> EmptyString
  /\ Py.startswith no_backend_error "No inference backend available" = true
  /\ Py.contains no_backend_error "Install Ollama" = true
  /\ Py.contains no_backend_error "Petals (pip install petals transformers)" = true.
Proof.
  intros model Hl Hd. rewrite infer_unfold. fold model.
  destruct (OllamaClient.available (ollama self)),
           (Py.startswith model "meta-llama/"),
           (PetalsClient.available (petals self)),
           (Py.in_list model PetalsClient.SUPPORTED_MODELS);
    try discriminate; simpl;
    (split; [reflexivity|]); (split; [discriminate|]);
    repeat split; vm_compute; reflexivity.
Qed.

(** [infer_no_backend] at work: an unsupported namespaced model with both
    backends down. *)
Lemma infer_no_backend_witness :
  let out := infer Sample.none_up Sample.offline
               (Sample.request 0 (Some "acme/Unknown-1B")) in
  InferenceResponse.backend out.1 = "none"
  /\ InferenceResponse.tokens_generated out.1 = 0
  /\ InferenceResponse.error out.1 = Some no_backend_error.
Proof.
  pose proof (infer_no_backend Sample.none_up Sample.offline
                (Sample.request 0 (Some "acme/Unknown-1B"))
                eq_refl eq_refl) as [H _].
  simpl. rewrite H. repeat split; reflexivity.
Defined.

End Routing.

(** ** Model resolution and the session registry *)

Section Registry.

Import ArqonInferenceBridge.

Lemma petals_generate_available (self : PetalsClient.t) (w : World.t)
    (model prompt : string) (max_tokens : Z) (temperature : Q) :
  PetalsClient.available
    (PetalsClient.generate self w model prompt max_tokens temperature).2
  = PetalsClient.available self.
Proof.
  unfold PetalsClient.generate, PetalsClient.load_model.
  repeat first
    [ reflexivity
    | case_decide
    | match goal with
      | |- context [match ?x with Raise _ => _ | Ret _ => _ end] => destruct x
      | |- context [if ?b then _ else _] => destruct b eqn:?
      end; simpl ].
Qed.

(** What [infer] leaves of the bridge: the request count of the addressed
    session is incremented if it is live, and nothing else of the registry,
    the counter, the default model or the availability flags changes. *)
Lemma infer_frame (self : t) (w : World.t) (request : InferenceRequest.t) :
  let out := infer self w request in
  sessions out.2
    = alter Session.bump (InferenceRequest.session_id request) (sessions self)
  /\ next_session_id out.2 = next_session_id self
  /\ default_model out.2 = default_model self
  /\ ollama out.2 = ollama self
  /\ PetalsClient.available (petals out.2) = PetalsClient.available (petals self).
Proof.
  intros out. subst out. rewrite infer_unfold.
  case_ifs;
    simpl; repeat split; try reflexivity.
  apply petals_generate_available.
Qed.

Lemma infer_model_used (self : t) (w : World.t) (request : InferenceRequest.t) :
  InferenceResponse.model_used (infer self w request).1
  = effective_model self request.
Proof.
  rewrite infer_unfold.
  case_ifs;
    simpl; [apply ollama_generate_backend | apply petals_generate_backend
           | reflexivity].
Qed.

Lemma infer_session_id (self : t) (w : World.t) (request : InferenceRequest.t) :
  InferenceResponse.session_id (infer self w request).1
  = InferenceRequest.session_id request.
Proof.
  rewrite infer_unfold.
  case_ifs;
    reflexivity.
Qed.

(** C2, as stated, fails in two places. On the live session 1 with sticky
    model ["M"]: a request with the explicit model ["M2"] still increments
    the session's request count, which the resolution in the
    specification's words leaves at 0; and a request whose explicit model
    is the empty string resolves to the sticky model, not to the explicit
    one. *)
Lemma resolution_differs_from_spec :
  let b := Sample.with_session in
  let out := infer b Sample.offline (Sample.request 1 (Some "M2")) in
  let spec := Spec.resolve_model (sessions b) (default_model b) 1 (Some "M2") in
  let out' := infer b Sample.offline (Sample.request 1 (Some EmptyString)) in
  let spec' :=
    Spec.resolve_model (sessions b) (default_model b) 1 (Some EmptyString) in
  (Session.requests <$> sessions b !! 1 = Some 0
   /\ InferenceResponse.model_used out.1 = "M2" /\ spec.1 = "M2"
   /\ Session.requests <$> sessions out.2 !! 1 = Some 1
   /\ Session.requests <$> spec.2 !! 1 = Some 0)
  /\ (InferenceResponse.model_used out'.1 = "M" /\ spec'.1 = EmptyString).
Proof. vm_compute. repeat split; reflexivity. Qed.

(** C2, amended: [infer] resolves the model to the explicit model if one is
    present and non-empty; else to the sticky model if the session id names
    a live session; else to the process default. The request count of a
    live session is incremented on every [infer] bound to it, with or
    without an explicit model, and no other session changes. An unknown id,
    or one that was closed, leaves the registry as it is and falls back to
    the default: [infer] returns a response in every case. *)
Theorem infer_resolves_model (self : t) (w : World.t)
    (request : InferenceRequest.t) :
  let sid := InferenceRequest.session_id request in
  let explicit := InferenceRequest.model request in
  let out := infer self w request in
  let resolved := InferenceResponse.model_used out.1 in
  (forall m, explicit = Some m -> m <> EmptyString -> resolved = m)
  /\ (forall s, Py.truthy explicit = false -> sessions self !! sid = Some s ->
                resolved = Session.model s)
  /\ (Py.truthy explicit = false -> sessions self !! sid = None ->
      resolved = default_model self)
  /\ sessions out.2 !! sid = Session.bump <$> sessions self !! sid
  /\ (forall j, j <> sid -> sessions out.2 !! j = sessions self !! j)
  /\ (sessions self !! sid = None -> sessions out.2 = sessions self)
  /\ (forall self0, self = close_session self0 sid ->
      resolved = Py.or_else explicit (default_model self0)
      /\ sessions out.2 = sessions self).
Proof.
  intros sid explicit out resolved.
  assert (Hm : resolved = effective_model self request)
    by apply infer_model_used.
  destruct (infer_frame self w request) as (Hs & _).
  fold out sid in Hs. unfold effective_model in Hm. fold sid explicit in Hm.
  assert (Hnone : sessions self !! sid = None -> sessions out.2 = sessions self).
  { intros L. rewrite Hs. apply alter_absent, L. }
  split; [|split; [|split; [|split; [|split; [|split]]]]].
  - intros m E Hne. rewrite Hm, E. destruct m; [contradiction|reflexivity].
  - intros s T L. rewrite Hm, L.
    destruct explicit as [[|c m]|]; simpl in *; congruence.
  - intros T L. rewrite Hm, L.
    destruct explicit as [[|c m]|]; simpl in *; congruence.
  - rewrite Hs. apply lookup_alter_eq.
  - intros j Hj. rewrite Hs. apply lookup_alter_ne. congruence.
  - exact Hnone.
  - intros self0 ->.
    assert (L : sessions (close_session self0 sid) !! sid = None
                /\ default_model (close_session self0 sid) = default_model self0).
    { unfold close_session. case_decide as L; simpl.
      - split; [apply lookup_delete_eq | reflexivity].
      - split; [|reflexivity].
        destruct (sessions self0 !! sid) eqn:E; [|reflexivity].
        exfalso. apply L. eauto. }
    destruct L as [L D]. split; [|apply Hnone, L].
    rewrite Hm, L, D. reflexivity.
Qed.

(** [infer_resolves_model] at work on the live session 1 (sticky ["M"]),
    on the unknown session 7, and on session 1 once closed. *)
Lemma infer_resolves_model_witness :
  InferenceResponse.model_used
    (infer Sample.with_session Sample.offline (Sample.request 1 (Some "M2"))).1
    = "M2"
  /\ InferenceResponse.model_used
       (infer Sample.with_session Sample.offline (Sample.request 1 None)).1
     = "M"
  /\ InferenceResponse.model_used
       (infer Sample.with_session Sample.offline (Sample.request 7 None)).1
     = "llama3.2:latest"
  /\ InferenceResponse.model_used
       (infer (close_session Sample.with_session 1) Sample.offline
          (Sample.request 1 None)).1
     = "llama3.2:latest".
Proof.
  split; [|split; [|split]].
  - apply (proj1 (infer_resolves_model Sample.with_session Sample.offline
                    (Sample.request 1 (Some "M2"))) "M2");
      [reflexivity | discriminate].
  - apply (proj1 (proj2 (infer_resolves_model Sample.with_session
                           Sample.offline (Sample.request 1 None)))
             (Session.mk "M" 0 0)); reflexivity.
  - apply (proj1 (proj2 (proj2 (infer_resolves_model Sample.with_session
                                  Sample.offline (Sample.request 7 None)))));
      reflexivity.
  - apply (proj2 (proj2 (proj2 (proj2 (proj2 (proj2
             (infer_resolves_model (close_session Sample.with_session 1)
                Sample.offline (Sample.request 1 None)))))))
             Sample.with_session eq_refl).
Defined.

End Registry.

(** ** Sticky models *)

Section Sticky.

Import ArqonInferenceBridge.



Lemma infer_all_keeps_default (calls : list (World.t * InferenceRequest.t))
    (self : t) :
  default_model (infer_all self calls) = default_model self.
Proof.
  revert self. induction calls as [|[w request] calls IH]; intros self; simpl.
  - reflexivity.
  - rewrite IH. apply infer_frame.
Qed.




End Sticky.

(** ** Response shape *)

Section Responses.

Import ArqonInferenceBridge.

Lemma set_session_id_keeps (sid : Z) (r : InferenceResponse.t) :
  error_means_empty r -> error_means_empty (InferenceResponse.set_session_id sid r).
Proof. intros H. exact H. Qed.

Lemma ollama_error_means_empty (self : OllamaClient.t) (w : World.t)
    (model prompt : string) (max_tokens : Z) (temperature : Q) :
  error_means_empty
    (OllamaClient.generate self w model prompt max_tokens temperature).
Proof.
  destruct (ollama_generate_outcomes self w model prompt max_tokens temperature)
    as [[e ->]|(data & _ & ->)]; [right | left]; auto.
Qed.

Lemma petals_error_means_empty (self : PetalsClient.t) (w : World.t)
    (model prompt : string) (max_tokens : Z) (temperature : Q) :
  error_means_empty
    (PetalsClient.generate self w model prompt max_tokens temperature).1.
Proof.
  destruct (petals_generate_cases self w model prompt max_tokens temperature)
    as [[e ->]|(raw & tokens & _ & _ & _ & ->)]; [right | left]; auto.
Qed.

(** C3, as stated, fails. When the backend produces an empty completion,
    [OllamaClient.generate], [PetalsClient.generate] and [infer] return
    empty text with no error. *)
Lemma empty_text_without_error :
  let r1 := OllamaClient.generate (OllamaClient.mk true) Sample.blank
              "llama3.2:latest" "Hi" 256 (7 # 10)%Q in
  let r2 := (PetalsClient.generate (PetalsClient.mk true ∅ ∅) Sample.blank
               "meta-llama/Meta-Llama-3.1-8B-Instruct" "Hi" 256 (7 # 10)%Q).1 in
  let r3 := (infer Sample.local_only Sample.blank (Sample.request 0 None)).1 in
  (InferenceResponse.text r1 = EmptyString /\ InferenceResponse.error r1 = None
   /\ ~ Spec.exactly_one r1)
  /\ (InferenceResponse.text r2 = EmptyString /\ InferenceResponse.error r2 = None
      /\ ~ Spec.exactly_one r2)
  /\ (InferenceResponse.text r3 = EmptyString /\ InferenceResponse.error r3 = None
      /\ ~ Spec.exactly_one r3).
Proof.
  split; [|split]; (split; [reflexivity|]); (split; [reflexivity|]);
    intros [[H _]|[H _]]; apply H; reflexivity.
Qed.

(** C3, amended: every response produced by an adapter's [generate] or by
    [infer] either has no error, or has an error together with empty text,
    zero [tokens_generated] and zero [tokens_per_second]; so no response
    carries both text and an error. Empty text with no error remains
    possible. *)
Theorem responses_error_means_empty (self : t) (w : World.t)
    (request : InferenceRequest.t) (model prompt : string) (max_tokens : Z)
    (temperature : Q) :
  error_means_empty
    (OllamaClient.generate (ollama self) w model prompt max_tokens temperature)
  /\ error_means_empty
       (PetalsClient.generate (petals self) w model prompt max_tokens
          temperature).1
  /\ error_means_empty (infer self w request).1
  /\ forall r,
       error_means_empty r ->
       ~ (InferenceResponse.error r <> None
          /\ InferenceResponse.text r <> EmptyString).
Proof.
  split; [apply ollama_error_means_empty|].
  split; [apply petals_error_means_empty|]. split.
  - rewrite infer_unfold.
    case_ifs;
      simpl.
    + apply set_session_id_keeps, ollama_error_means_empty.
    + apply set_session_id_keeps, petals_error_means_empty.
    + right. auto.
  - intros r [H|[H _]] [He Ht]; contradiction.
Qed.


(** A reply of the local server whose token count does not fit a float
    makes [eval_count / elapsed] raise inside the [try]: the completion is
    dropped and the response carries the error. *)
Lemma eval_count_too_large :
  OllamaClient.generate (OllamaClient.mk true) Sample.oversized
    "llama3.2:latest" "Hi" 256 (7 # 10)%Q
  = InferenceResponse.mk 0 EmptyString 0 0%Q "llama3.2:latest" "ollama"
      (Some "int too large to convert to float").
Proof. vm_compute. reflexivity. Qed.



End Responses.

(** ** Token rate *)

Section Rate.



(** Without a positive measured time (the clock stood still or stepped
    back) both adapters report a rate of 0. *)
Lemma rate_zero_unless_positive (local : OllamaClient.t)
    (distributed : PetalsClient.t) (w : World.t) (model prompt : string)
    (max_tokens : Z) (temperature : Q) :
  ~ (0 < World.clock_end w - World.clock_start w)%Q ->
  InferenceResponse.tokens_per_second
    (OllamaClient.generate local w model prompt max_tokens temperature) = 0%Q
  /\ InferenceResponse.tokens_per_second
       (PetalsClient.generate distributed w model prompt max_tokens
          temperature).1 = 0%Q.
Proof.
  intros Hn.
  assert (G : Py.gt (World.clock_end w - World.clock_start w) 0 = false).
  { destruct (Py.gt _ 0) eqn:G; [|reflexivity].
    apply gt_zero_iff in G. contradiction. }
  split.
  - destruct (ollama_generate_outcomes local w model prompt max_tokens
                temperature) as [[e ->]|(data & _ & ->)]; simpl;
      [reflexivity | rewrite G; reflexivity].
  - destruct (petals_generate_cases distributed w model prompt max_tokens
                temperature) as [[e ->]|(raw & tokens & _ & _ & _ & ->)];
      simpl; [reflexivity | rewrite G; reflexivity].
Qed.



End Rate.

(** ** Closing and creating sessions *)

Section Sessions.

Import ArqonInferenceBridge.

Lemma close_session_lookup (self : t) (sid j : Z) :
  sessions (close_session self sid) !! j
  = if decide (sid = j) then None else sessions self !! j.
Proof.
  unfold close_session. case_decide as L; simpl.
  - rewrite lookup_delete. reflexivity.
  - case_decide; [subst|reflexivity].
    destruct (sessions self !! j) eqn:E; [|reflexivity].
    exfalso. apply L. eauto.
Qed.

Lemma close_session_absent (self : t) (sid : Z) :
  sessions self !! sid = None -> close_session self sid = self.
Proof.
  intros L. unfold close_session. rewrite decide_False; [reflexivity|].
  rewrite L. intros [x Hx]. discriminate.
Qed.

(** C8: [close_session] removes the entry of the given id if there is one
    and leaves every other session as it is; on an id that is not live
    (never created, or already closed) it changes nothing, so closing twice
    is closing once; the counter, the default model and the backends are
    untouched. It returns normally for every id, and the dispatcher answers
    a ["close_session"] message with [{"success": True}] whether or not the
    id was live. *)
Theorem close_session_idempotent (self : t) (w : World.t) (sid : Z)
    (request : Request.t) :
  let closed := close_session self sid in
  sessions closed !! sid = None
  /\ (forall j, j <> sid -> sessions closed !! j = sessions self !! j)
  /\ (sessions self !! sid = None -> closed = self)
  /\ close_session closed sid = closed
  /\ next_session_id closed = next_session_id self
  /\ default_model closed = default_model self
  /\ ollama closed = ollama self
  /\ petals closed = petals self
  /\ (Request.action request = Some "close_session" ->
      process_request self w request
      = (Reply.Success true,
         close_session self (default 0 (Request.session_id request)))).
Proof.
  intros closed.
  assert (L : sessions closed !! sid = None).
  { subst closed. rewrite close_session_lookup, decide_True; reflexivity. }
  split; [exact L|]. split; [|split; [|split]].
  - intros j Hj. subst closed. rewrite close_session_lookup.
    rewrite decide_False by congruence. reflexivity.
  - apply close_session_absent.
  - apply close_session_absent, L.
  - assert (F : next_session_id closed = next_session_id self
                /\ default_model closed = default_model self
                /\ ollama closed = ollama self
                /\ petals closed = petals self).
    { subst closed. unfold close_session.
      case_decide; simpl; repeat split; reflexivity. }
    destruct F as (F1 & F2 & F3 & F4).
    split; [exact F1|]. split; [exact F2|]. split; [exact F3|].
    split; [exact F4|].
    intros E. unfold process_request. rewrite E. reflexivity.
Qed.

(** [close_session_idempotent] at work: closing session 1 of a bridge that
    holds it, closing the unknown session 7, and the dispatcher's answer. *)
Lemma close_session_idempotent_witness :
  close_session Sample.both_up 7 = Sample.both_up
  /\ process_request Sample.with_session Sample.offline
       (Request.mk (Some "close_session") None (Some 7) None None None)
     = (Reply.Success true, close_session Sample.with_session 7).
Proof.
  split.
  - apply (proj1 (proj2 (proj2 (close_session_idempotent Sample.both_up
             Sample.offline 7
             (Request.mk (Some "close_session") None (Some 7) None None None))))).
    reflexivity.
  - apply (proj2 (proj2 (proj2 (proj2 (proj2 (proj2 (proj2 (proj2
             (close_session_idempotent Sample.with_session Sample.offline 7
                (Request.mk (Some "close_session") None (Some 7) None None
                   None)))))))))).
    reflexivity.
Defined.

Lemma init_ids_below_counter (port : Z) (ollama_up has_petals : bool) :
  ids_below_counter (init port ollama_up has_petals).
Proof.
  split; simpl; [lia|]. intros j [x Hx]. rewrite lookup_empty in Hx. discriminate.
Qed.

(** One dispatched message either hands out the counter's value and moves
    the counter up by one, or hands out nothing and leaves the counter. *)
Lemma process_request_counter (self : t) (w : World.t) (request : Request.t) :
  let out := process_request self w request in
  (out.1 = Reply.SessionId (next_session_id self)
   /\ next_session_id out.2 = next_session_id self + 1
   /\ sessions out.2
      = <[next_session_id self :=
            Session.mk (Py.or_else (Request.model request) (default_model self))
                       (World.now w) 0]> (sessions self))
  \/ (created_ids [out.1] = []
      /\ next_session_id out.2 = next_session_id self
      /\ forall j, is_Some (sessions out.2 !! j) -> is_Some (sessions self !! j)).
Proof.
  unfold process_request.
  repeat match goal with
         | |- context [if String.eqb ?a ?b then _ else _] =>
             destruct (String.eqb a b)
         end; simpl; try (right; repeat split; auto; fail).
  - left. repeat split.
  - right. repeat split.
    + unfold close_session. case_decide; reflexivity.
    + intros j. rewrite close_session_lookup. case_decide; [|auto].
      intros [x Hx]. discriminate.
  - destruct (infer self w _) as [response self1] eqn:E. simpl.
    right. split; [reflexivity|].
    pose proof (infer_frame self w
      (InferenceRequest.mk (default 0 (Request.session_id request))
         (default EmptyString (Request.prompt request))
         (default 256 (Request.max_tokens request))
         (default (7 # 10)%Q (Request.temperature request))
         (Request.model request))) as (Hs & Hn & _).
    rewrite E in Hs, Hn. simpl in Hs, Hn. split; [exact Hn|].
    intros j. rewrite Hs. apply lookup_alter_is_Some.
Qed.

Lemma process_request_invariant (self : t) (w : World.t) (request : Request.t) :
  ids_below_counter self ->
  ids_below_counter (process_request self w request).2.
Proof.
  intros [H1 H2].
  destruct (process_request_counter self w request)
    as [(_ & Hn & Hs)|(_ & Hn & Hs)]; split; rewrite Hn; try lia.
  - intros j. rewrite Hs, lookup_insert. case_decide; [lia|].
    intros Hj. apply H2 in Hj. lia.
  - intros j Hj. apply H2, Hs, Hj.
Qed.

Lemma created_ids_cons (reply : Reply.t) (replies : list Reply.t) :
  created_ids (reply :: replies) = created_ids [reply] ++ created_ids replies.
Proof. unfold created_ids. simpl. destruct reply; reflexivity. Qed.

(** The ids handed out in a run from any bridge are the consecutive values
    of the counter. *)
Lemma serve_created_ids (msgs : list (World.t * Request.t)) (self : t) :
  let run := serve self msgs in
  let n := length (created_ids run.1) in
  created_ids run.1
    = (fun k => next_session_id self + Z.of_nat k) <$> seq 0 n
  /\ next_session_id run.2 = next_session_id self + Z.of_nat n
  /\ (ids_below_counter self -> ids_below_counter run.2).
Proof.
  revert self. induction msgs as [|[w request] msgs IH]; intros self; simpl.
  - split; [reflexivity|]. split; [lia|]. intros H. exact H.
  - pose proof (process_request_counter self w request) as Hc.
    pose proof (process_request_invariant self w request) as Hi.
    destruct (process_request self w request) as [reply self1].
    cbv zeta in Hc. cbn [fst snd] in Hc, Hi.
    specialize (IH self1). destruct (serve self1 msgs) as [replies self2].
    cbv zeta in IH. cbn [fst snd] in IH |- *.
    destruct IH as (IH1 & IH2 & IH3).
    rewrite (created_ids_cons reply replies).
    destruct Hc as [(-> & Hn & _)|(Hr & Hn & _)].
    + change (created_ids [Reply.SessionId (next_session_id self)])
        with [next_session_id self].
      cbn [app length seq fmap list_fmap]. rewrite IH1 at 1. rewrite IH2, Hn.
      split; [|split; [lia|tauto]].
      rewrite Z.add_0_r. f_equal. rewrite <- seq_shift, <- list_fmap_compose.
      apply list_fmap_ext. intros _ k _. simpl. lia.
    + rewrite Hr. cbn [app]. rewrite IH2, Hn.
      split; [|split; [reflexivity|tauto]].
      rewrite IH1 at 1. rewrite Hn. reflexivity.
Qed.

(** C9: the bridge starts with the counter at 1, and in any run of the
    dispatcher from the start the session ids handed out are 1, 2, 3, ...
    in this order, whatever closes, inferences and other messages come in
    between: ids strictly increase and none is handed out twice. The next
    [create_session] returns the next integer, which is positive, is not
    live and was never handed out, stores under it the given model or the
    process default with a request count of 0 and the creation time, leaves
    the other sessions alone and moves the counter up by one. *)
Theorem session_ids_are_monotonic (port : Z) (ollama_up has_petals : bool)
    (msgs : list (World.t * Request.t)) (w : World.t) (model : option string) :
  let start := init port ollama_up has_petals in
  let run := serve start msgs in
  let ids := created_ids run.1 in
  let created := create_session run.2 w model in
  next_session_id start = 1
  /\ ids = Z.of_nat <$> seq 1 (length ids)
  /\ (forall a b x y, ids !! a = Some x -> ids !! b = Some y ->
                      (a < b)%nat -> x < y)
  /\ NoDup ids
  /\ created.1 = 1 + Z.of_nat (length ids)
  /\ 1 <= created.1
  /\ (created.1 ∉ ids)
  /\ sessions run.2 !! created.1 = None
  /\ sessions created.2 !! created.1
     = Some (Session.mk (Py.or_else model (default_model run.2))
                        (World.now w) 0)
  /\ (forall j, j <> created.1 -> sessions created.2 !! j = sessions run.2 !! j)
  /\ next_session_id created.2 = created.1 + 1.
Proof.
  intros start run ids created.
  destruct (serve_created_ids msgs start) as (H1 & H2 & H3).
  fold run ids in H1, H2, H3.
  specialize (H3 (init_ids_below_counter port ollama_up has_petals)).
  change (next_session_id start) with 1 in H1, H2.
  assert (Hids : ids = Z.of_nat <$> seq 1 (length ids)).
  { rewrite H1 at 1. rewrite <- seq_shift, <- list_fmap_compose.
    apply list_fmap_ext. intros _ k _. simpl. lia. }
  assert (Hlook : forall a x, ids !! a = Some x -> x = 1 + Z.of_nat a
                                                /\ (a < length ids)%nat).
  { intros a x L. pose proof (lookup_lt_Some _ _ _ L) as Hlt.
    rewrite Hids, list_lookup_fmap, lookup_seq_lt in L by exact Hlt.
    simpl in L. injection L as <-. split; [lia|exact Hlt]. }
  assert (Hnew : created.1 = 1 + Z.of_nat (length ids)) by exact H2.
  split; [reflexivity|]. split; [exact Hids|]. split.
  { intros a b x y La Lb Hab.
    apply Hlook in La as [-> _]. apply Hlook in Lb as [-> _]. lia. }
  split.
  { rewrite Hids. apply (NoDup_fmap_2 Z.of_nat), NoDup_seq. }
  split; [exact Hnew|]. split; [lia|]. split.
  { intros Hin. apply list_elem_of_lookup in Hin as [a La].
    apply Hlook in La as [E Hlt]. lia. }
  split.
  { destruct (sessions run.2 !! created.1) eqn:E; [|reflexivity].
    destruct H3 as [_ H3]. specialize (H3 created.1 (ex_intro _ _ E)).
    subst created. simpl in H3. lia. }
  split; [apply lookup_insert_eq|]. split; [|reflexivity].
  intros j Hj. subst created. simpl. apply lookup_insert_ne. simpl in Hj.
  congruence.
Qed.

(** ** The dispatcher's default action *)

(** C10: a request object without an ["action"] key is dispatched as an
    inference request, with [session_id] defaulting to 0, [prompt] to the
    empty string, [max_tokens] to 256 and [temperature] to 0.7; the reply is
    the response of [infer], never the unknown-action error. *)
Theorem missing_action_is_infer (self : t) (w : World.t) (request : Request.t) :
  Request.action request = None ->
  let req :=
    InferenceRequest.mk
      (default 0 (Request.session_id request))
      (default EmptyString (Request.prompt request))
      (default 256 (Request.max_tokens request))
      (default (7 # 10)%Q (Request.temperature request))
      (Request.model request) in
  process_request self w request
    = (Reply.Response (infer self w req).1, (infer self w req).2)
  /\ (forall e, (process_request self w request).1 <> Reply.Error e)
  /\ (Request.session_id request = None -> Request.prompt request = None ->
      Request.max_tokens request = None -> Request.temperature request = None ->
      req = InferenceRequest.mk 0 EmptyString 256 (7 # 10)%Q
              (Request.model request)).
Proof.
  intros E req.
  assert (H : process_request self w request
              = (Reply.Response (infer self w req).1, (infer self w req).2)).
  { unfold process_request. rewrite E. simpl. fold req.
    destruct (infer self w req); reflexivity. }
  split; [exact H|]. split.
  - intros e. rewrite H. discriminate.
  - intros H1 H2 H3 H4. subst req. rewrite H1, H2, H3, H4. reflexivity.
Qed.

(** [missing_action_is_infer] at work on the empty request object. *)
Lemma missing_action_is_infer_witness :
  process_request Sample.none_up Sample.offline
    (Request.mk None None None None None None)
  = (Reply.Response
       (InferenceResponse.mk 0 EmptyString 0 0%Q "llama3.2:latest" "none"
          (Some no_backend_error)),
     Sample.none_up).
Proof.
  rewrite (proj1 (missing_action_is_infer Sample.none_up Sample.offline
                    (Request.mk None None None None None None) eq_refl)).
  reflexivity.
Defined.

End Sessions.

(** ** Stripping and splitting *)

Section Strings.

Lemma app_cons (c : ascii) (s t : string) :
  String c s +:+ t = String c (s +:+ t).
Proof. reflexivity. Qed.

Lemma app_empty_l (t : string) : EmptyString +:+ t = t.
Proof. reflexivity. Qed.

Lemma app_assoc_string (s t u : string) : (s +:+ t) +:+ u = s +:+ (t +:+ u).
Proof.
  induction s as [|c s IH]; [reflexivity|].
  rewrite !app_cons, IH. reflexivity.
Qed.

Lemma app_last_not_empty (front : string) (c : ascii) :
  front +:+ String c EmptyString <> EmptyString.
Proof. destruct front; rewrite ?app_cons, ?app_empty_l; discriminate. Qed.

Lemma lstrip_head (s : string) (c : ascii) (rest : string) :
  Py.lstrip s = String c rest -> Py.isspace c = false.
Proof.
  induction s as [|d s IH]; simpl; [discriminate|].
  destruct (Py.isspace d) eqn:E; [exact IH|].
  intros H. injection H as <- _. exact E.
Qed.

Lemma lstrip_suffix (s : string) : exists front, s = front +:+ Py.lstrip s.
Proof.
  induction s as [|d s [front IH]]; simpl.
  - exists EmptyString. reflexivity.
  - destruct (Py.isspace d).
    + exists (String d front). rewrite app_cons, <- IH. reflexivity.
    + exists EmptyString. reflexivity.
Qed.

Lemma rstrip_last (s front : string) (c : ascii) :
  Py.rstrip s = front +:+ String c EmptyString -> Py.isspace c = false.
Proof.
  revert front. induction s as [|d s IH]; intros front; simpl.
  - intros H. symmetry in H. exfalso. exact (app_last_not_empty _ _ H).
  - destruct (Py.rstrip s) as [|e r] eqn:R.
    + destruct (Py.isspace d) eqn:E.
      * intros H. symmetry in H. exfalso. exact (app_last_not_empty _ _ H).
      * destruct front as [|x front]; rewrite ?app_cons, ?app_empty_l; intros H.
        -- injection H as <-. exact E.
        -- injection H as _ H. exfalso. exact (app_last_not_empty _ _ (eq_sym H)).
    + destruct front as [|x front]; rewrite ?app_cons, ?app_empty_l; intros H.
      * injection H as _ H. discriminate.
      * injection H as _ H. exact (IH front H).
Qed.

(** [strip] leaves no whitespace at either end. *)
Lemma strip_trimmed (s : string) : trimmed (Py.strip s).
Proof.
  unfold Py.strip. split.
  - intros c rest H. exact (lstrip_head _ _ _ H).
  - intros front c H.
    destruct (lstrip_suffix (Py.rstrip s)) as [skipped Hs].
    rewrite H, <- app_assoc_string in Hs.
    exact (rstrip_last _ _ _ Hs).
Qed.

Lemma empty_trimmed : trimmed EmptyString.
Proof.
  split; [discriminate|].
  intros front c H. exfalso. exact (app_last_not_empty _ _ (eq_sym H)).
Qed.

(** A trimmed string is left as it is by [strip]. *)
Lemma lstrip_fixed (s : string) :
  (forall c rest, s = String c rest -> Py.isspace c = false) -> Py.lstrip s = s.
Proof.
  intros H. destruct s as [|c s]; [reflexivity|].
  simpl. rewrite (H c s eq_refl). reflexivity.
Qed.

Lemma rstrip_fixed (s : string) :
  (forall front c, s = front +:+ String c EmptyString -> Py.isspace c = false) ->
  Py.rstrip s = s.
Proof.
  induction s as [|d s IH]; intros H; [reflexivity|].
  simpl. rewrite IH.
  - destruct s as [|e s]; [|reflexivity].
    rewrite (H EmptyString d eq_refl). reflexivity.
  - intros front c E. apply (H (String d front) c). rewrite app_cons, E.
    reflexivity.
Qed.

Lemma strip_fixed (s : string) : trimmed s -> Py.strip s = s.
Proof.
  intros [Hl Hr]. unfold Py.strip. rewrite (rstrip_fixed _ Hr).
  apply lstrip_fixed, Hl.
Qed.

(** [split_on] never returns the empty list, and gluing the fields back
    with the separator gives the string. *)
Lemma split_on_not_nil (sep : ascii) (s : string) : Py.split_on sep s <> [].
Proof.
  induction s as [|c s IH]; simpl; [discriminate|].
  destruct (Ascii.eqb c sep); [discriminate|].
  destruct (Py.split_on sep s); discriminate.
Qed.

End Strings.

(** ** The distributed client's load cache *)

(** Split a conjunction of implications and close the routine parts. *)
Ltac split_goals :=
  repeat (intros; match goal with |- _ /\ _ => split end);
  intros; simpl in *;
  try done; try set_solver.

Section LoadCache.

Lemma load_model_loaded (self : PetalsClient.t) (w : World.t)
    (model_name : string) :
  let out := PetalsClient.load_model self w model_name in
  (out.1 = true -> model_name ∈ PetalsClient.models out.2)
  /\ (out.1 = false -> PetalsClient.models out.2 = PetalsClient.models self).
Proof.
  intros out. subst out. unfold PetalsClient.load_model.
  repeat first [case_decide | case_ifs]; simpl; split_goals.
Qed.



Lemma petals_generate_state (self : PetalsClient.t) (w : World.t)
    (model prompt : string) (max_tokens : Z) (temperature : Q) :
  (PetalsClient.generate self w model prompt max_tokens temperature).2
  = (if decide (model ∈ PetalsClient.models self) then self
     else (PetalsClient.load_model self w model).2).
Proof.
  unfold PetalsClient.generate. case_decide.
  - destruct (PetalsClient.generate_try _ _ _ _ _ _ _); reflexivity.
  - destruct (PetalsClient.load_model self w model) as [[] self1]; simpl;
      [|reflexivity].
    destruct (PetalsClient.generate_try _ _ _ _ _ _ _); reflexivity.
Qed.

Lemma load_model_grows (self : PetalsClient.t) (w : World.t)
    (model_name : string) :
  PetalsClient.models self
    ⊆ PetalsClient.models (PetalsClient.load_model self w model_name).2
  /\ PetalsClient.tokenizers self
     ⊆ PetalsClient.tokenizers (PetalsClient.load_model self w model_name).2
  /\ (tokenizers_cover_models self ->
      tokenizers_cover_models (PetalsClient.load_model self w model_name).2).
Proof.
  unfold tokenizers_cover_models, PetalsClient.load_model.
  destruct (PetalsClient.available self); simpl; [|split_goals].
  case_decide as Hin; [split_goals|].
  destruct (World.tokenizer_from_pretrained w model_name); simpl; [|split_goals].
  destruct (World.model_from_pretrained w model_name); simpl;
    (split; [|split; [|intros Hc]]);
    first [ reflexivity
          | apply union_subseteq_r
          | apply union_mono_l, Hc
          | etrans; [exact Hc | apply union_subseteq_r] ].
Qed.

Lemma petals_generate_grows (self : PetalsClient.t) (w : World.t)
    (model prompt : string) (max_tokens : Z) (temperature : Q) :
  let out := PetalsClient.generate self w model prompt max_tokens temperature in
  PetalsClient.models self ⊆ PetalsClient.models out.2
  /\ PetalsClient.tokenizers self ⊆ PetalsClient.tokenizers out.2
  /\ (tokenizers_cover_models self -> tokenizers_cover_models out.2).
Proof.
  intros out. subst out. rewrite petals_generate_state.
  case_decide; [split_goals | apply load_model_grows].
Qed.

(** X2: [PetalsClient.generate] touches the client only to load the model:
    on a cached model the client is returned as it is, otherwise it is the
    client that [load_model] leaves. So the caches only grow, and if every
    cached model had its tokenizer before the call, the same holds after. *)
Theorem generate_loads_on_demand (self : PetalsClient.t) (w : World.t)
    (model prompt : string) (max_tokens : Z) (temperature : Q) :
  let out := PetalsClient.generate self w model prompt max_tokens temperature in
  out.2 = (if decide (model ∈ PetalsClient.models self) then self
           else (PetalsClient.load_model self w model).2)
  /\ PetalsClient.models self ⊆ PetalsClient.models out.2
  /\ PetalsClient.tokenizers self ⊆ PetalsClient.tokenizers out.2
  /\ (tokenizers_cover_models self -> tokenizers_cover_models out.2).
Proof.
  intros out. split; [apply petals_generate_state|].
  apply petals_generate_grows.
Qed.

(** [generate_loads_on_demand] at work: the first call on a fresh client
    leaves the model and its tokenizer cached. *)
Lemma generate_loads_on_demand_witness :
  tokenizers_cover_models
    (PetalsClient.generate (PetalsClient.mk true ∅ ∅) (Sample.echoing 0 1)
       "meta-llama/Meta-Llama-3.1-8B-Instruct" "Hi" 256 (7 # 10)%Q).2.
Proof.
  apply (proj2 (proj2 (proj2
           (generate_loads_on_demand (PetalsClient.mk true ∅ ∅)
              (Sample.echoing 0 1) "meta-llama/Meta-Llama-3.1-8B-Instruct"
              "Hi" 256 (7 # 10)%Q)))).
  unfold tokenizers_cover_models. simpl. set_solver.
Defined.

(** X3: as long as every cached model has its tokenizer, which holds from
    the start on, an error of [PetalsClient.generate] is the fixed text
    ["Model not loaded"] of a failed load, or the text of the exception
    that generation or token counting raised: the lookups in the caches
    never fail. *)
Theorem generate_error_sources (self : PetalsClient.t) (w : World.t)
    (model prompt : string) (max_tokens : Z) (temperature : Q) (e : string) :
  tokenizers_cover_models self ->
  let out := PetalsClient.generate self w model prompt max_tokens temperature in
  InferenceResponse.error out.1 = Some e ->
  (e = "Model not loaded" /\ model ∉ PetalsClient.models out.2)
  \/ World.decode_generate w model prompt max_tokens temperature = Raise e
  \/ (exists raw,
        World.decode_generate w model prompt max_tokens temperature = Ret raw
        /\ World.encode_len w model (Py.slice_from (String.length prompt) raw)
           = Raise e).
Proof.
  intros Hcov out.
  assert (Hrun : forall self1 : PetalsClient.t,
    model ∈ PetalsClient.models self1 -> tokenizers_cover_models self1 ->
    forall r, match PetalsClient.generate_try self1 w model prompt max_tokens
                      temperature (World.clock_start w) with
              | Ret r => r
              | Raise e' => InferenceResponse.mk 0 EmptyString 0 0%Q model
                              "petals" (Some e')
              end = r ->
    InferenceResponse.error r = Some e ->
    World.decode_generate w model prompt max_tokens temperature = Raise e
    \/ (exists raw,
          World.decode_generate w model prompt max_tokens temperature = Ret raw
          /\ World.encode_len w model (Py.slice_from (String.length prompt) raw)
             = Raise e)).
  { intros self1 Hin Hc r <-. rewrite petals_try_cases.
    rewrite decide_True by (apply Hc, Hin). rewrite decide_True by exact Hin.
    destruct (World.decode_generate _ _ _ _ _) as [e1|raw]; simpl.
    - intros [= ->]. left. reflexivity.
    - destruct (World.encode_len _ _ _) as [e2|tokens] eqn:E; simpl.
      + intros [= ->]. right. exists raw. auto.
      + discriminate. }
  pose proof (petals_generate_grows self w model prompt max_tokens
                temperature) as (_ & _ & Hcov').
  specialize (Hcov' Hcov). fold out in Hcov'.
  subst out. revert Hcov'. unfold PetalsClient.generate.
  case_decide as Hin.
  - intros _ He. right.
    destruct (PetalsClient.generate_try _ _ _ _ _ _ _) eqn:G;
      apply (Hrun self Hin Hcov _ ltac:(rewrite G; reflexivity) He).
  - destruct (PetalsClient.load_model self w model) as [loaded self1] eqn:L.
    pose proof (load_model_loaded self w model) as Hl. rewrite L in Hl.
    destruct loaded; simpl.
    + intros Hc He. right. simpl in Hl.
      destruct (PetalsClient.generate_try _ _ _ _ _ _ _) eqn:G;
        simpl in Hc;
        apply (Hrun self1 (proj1 Hl eq_refl) Hc _
                 ltac:(rewrite G; reflexivity) He).
    + intros _ [= <-]. left. split; [reflexivity|].
      simpl in Hl. rewrite (proj2 Hl eq_refl). exact Hin.
Qed.

End LoadCache.

Section LoadCacheExamples.

(** [generate_error_sources] at work: on a fresh client with the swarm out
    of reach the load fails. *)
Lemma generate_error_sources_witness :
  let self := PetalsClient.mk true ∅ ∅ in
  let model := "meta-llama/Meta-Llama-3.1-8B-Instruct" in
  let out := PetalsClient.generate self Sample.offline model "Hi" 256 (7 # 10)%Q in
  ("Model not loaded" = "Model not loaded" /\ model ∉ PetalsClient.models out.2)
  \/ World.decode_generate Sample.offline model "Hi" 256 (7 # 10)%Q
     = Raise "Model not loaded"
  \/ (exists raw,
        World.decode_generate Sample.offline model "Hi" 256 (7 # 10)%Q = Ret raw
        /\ World.encode_len Sample.offline model
             (Py.slice_from (String.length "Hi") raw) = Raise "Model not loaded").
Proof.
  apply (generate_error_sources (PetalsClient.mk true ∅ ∅) Sample.offline
           "meta-llama/Meta-Llama-3.1-8B-Instruct" "Hi" 256 (7 # 10)%Q
           "Model not loaded").
  - unfold tokenizers_cover_models. simpl. set_solver.
  - reflexivity.
Defined.

End LoadCacheExamples.

(** ** Counting words *)

Section Words.

Lemma split_from_length (s word : string) :
  (length (Py.split_from word s)
   <= String.length s + match word with EmptyString => 0 | _ => 1 end)%nat.
Proof.
  revert word. induction s as [|c s IH]; intros word; simpl.
  - destruct word; simpl; lia.
  - destruct (Py.isspace c).
    + specialize (IH EmptyString). destruct word; simpl in *; lia.
    + specialize (IH (word +:+ String c EmptyString)).
      destruct (word +:+ String c EmptyString) eqn:E.
      * exfalso. exact (app_last_not_empty _ _ E).
      * destruct word; simpl in *; lia.
Qed.

Lemma split_blank (s : string) :
  forallb Py.isspace (list_ascii_of_string s) = true -> Py.split s = [].
Proof.
  unfold Py.split. induction s as [|c s IH]; simpl; [reflexivity|].
  intros H. apply andb_true_iff in H as [Hc Hs]. rewrite Hc. exact (IH Hs).
Qed.

Lemma no_space_app (word : string) (c : ascii) :
  forallb (fun c => negb (Py.isspace c)) (list_ascii_of_string word) = true ->
  Py.isspace c = false ->
  forallb (fun c => negb (Py.isspace c))
          (list_ascii_of_string (word +:+ String c EmptyString)) = true.
Proof.
  intros Hw Hc. induction word as [|d word IH].
  - rewrite app_empty_l. simpl. rewrite Hc. reflexivity.
  - rewrite app_cons. simpl in *. apply andb_true_iff in Hw as [Hd Hw].
    rewrite Hd. exact (IH Hw).
Qed.

Lemma split_from_words (s word : string) :
  forallb (fun c => negb (Py.isspace c)) (list_ascii_of_string word) = true ->
  Forall (fun word => word <> EmptyString
                      /\ forallb (fun c => negb (Py.isspace c))
                                 (list_ascii_of_string word) = true)
         (Py.split_from word s).
Proof.
  revert word. induction s as [|c s IH]; intros word Hw; simpl.
  - destruct word; [constructor|]. constructor; [|constructor].
    split; [discriminate | exact Hw].
  - destruct (Py.isspace c) eqn:Hc.
    + destruct word.
      * apply IH. reflexivity.
      * constructor; [split; [discriminate | exact Hw]|].
        apply IH. reflexivity.
    + apply IH, no_space_app; assumption.
Qed.

(** X4: when the local server's reply has no ["eval_count"],
    [OllamaClient.generate] counts the whitespace-separated words of the
    returned text: each counted word is non-empty and free of whitespace,
    the count lies between 0 and the length of the text, and it is 0 for a
    blank text, in particular when the ["response"] key is missing too. *)
Theorem ollama_counts_words (self : OllamaClient.t) (w : World.t)
    (model prompt : string) (max_tokens : Z) (temperature : Q)
    (data : World.GenerateJson) :
  World.post_generate w model prompt max_tokens temperature = Ret data ->
  World.eval_count data = None ->
  let r := OllamaClient.generate self w model prompt max_tokens temperature in
  let text := default EmptyString (World.response data) in
  InferenceResponse.text r = text
  /\ InferenceResponse.error r = None
  /\ InferenceResponse.tokens_generated r = Z.of_nat (length (Py.split text))
  /\ 0 <= InferenceResponse.tokens_generated r <= Z.of_nat (String.length text)
  /\ Forall (fun word => word <> EmptyString
                         /\ forallb (fun c => negb (Py.isspace c))
                                    (list_ascii_of_string word) = true)
            (Py.split text)
  /\ (forallb Py.isspace (list_ascii_of_string text) = true ->
      InferenceResponse.tokens_generated r = 0)
  /\ (World.response data = None ->
      InferenceResponse.text r = EmptyString
      /\ InferenceResponse.tokens_generated r = 0).
Proof.
  intros P E r text.
  assert (Hr : InferenceResponse.text r = text
               /\ InferenceResponse.error r = None
               /\ InferenceResponse.tokens_generated r
                  = Z.of_nat (length (Py.split text))).
  { subst r. rewrite ollama_generate_cases, P, E. cbv zeta.
    rewrite andb_false_r. repeat split. }
  destruct Hr as (Ht & He & Hn).
  split; [exact Ht|]. split; [exact He|]. split; [exact Hn|].
  split; [|split; [|split]].
  - rewrite Hn. pose proof (split_from_length text EmptyString) as L.
    unfold Py.split. simpl in L. lia.
  - apply split_from_words. reflexivity.
  - intros B. rewrite Hn, (split_blank _ B). reflexivity.
  - intros N. rewrite Ht, Hn. subst text. rewrite N. split; reflexivity.
Qed.

(** [ollama_counts_words] at work: a reply with three words and no count. *)
Lemma ollama_counts_words_witness :
  let w :=
    {| World.clock_start := 0%Q; World.clock_end := 1%Q; World.now := 0%Q;
       World.timestamp := EmptyString;
       World.post_generate := fun _ _ _ _ =>
         Ret {| World.response := Some "  so  it goes ";
                World.eval_count := None |};
       World.get_tags := Ret []; World.get_ps := Ret [];
       World.post_pull := fun _ => true;
       World.tokenizer_from_pretrained := fun _ => true;
       World.model_from_pretrained := fun _ => true;
       World.decode_generate := fun _ _ _ _ => Ret EmptyString;
       World.encode_len := fun _ _ => Ret 0 |} in
  InferenceResponse.tokens_generated
    (OllamaClient.generate (OllamaClient.mk true) w "llama3.2:latest" "Hi" 256
       (7 # 10)%Q) = 3.
Proof.
  intros w.
  apply (proj1 (proj2 (proj2
           (ollama_counts_words (OllamaClient.mk true) w "llama3.2:latest" "Hi"
              256 (7 # 10)%Q
              {| World.response := Some "  so  it goes ";
                 World.eval_count := None |} eq_refl eq_refl)))).
Defined.

End Words.

(** ** More on [infer] *)

Section InferMore.

Import ArqonInferenceBridge.

(** X5: whichever branch answers, the response of [infer] carries the
    session id of the request (the adapters answer with 0), names the
    model that was resolved for it, and is labelled ["ollama"], ["petals"]
    or ["none"]; the label ["none"] comes with the fixed error, and a
    request without backend error is never labelled ["none"]. *)
Theorem infer_labels (self : t) (w : World.t) (request : InferenceRequest.t) :
  let r := (infer self w request).1 in
  InferenceResponse.session_id r = InferenceRequest.session_id request
  /\ InferenceResponse.model_used r = effective_model self request
  /\ (InferenceResponse.backend r = "ollama"
      \/ InferenceResponse.backend r = "petals"
      \/ InferenceResponse.backend r = "none")
  /\ (InferenceResponse.backend r = "none" ->
      InferenceResponse.error r = Some no_backend_error)
  /\ (InferenceResponse.error r = None ->
      InferenceResponse.backend r <> "none").
Proof.
  intros r. subst r. rewrite infer_unfold. case_ifs; simpl.
  - destruct (ollama_generate_backend (ollama self) w
                (effective_model self request)
                (InferenceRequest.prompt request)
                (InferenceRequest.max_tokens request)
                (InferenceRequest.temperature request)) as [-> ->].
    split_goals; auto.
  - destruct (petals_generate_backend (petals self) w
                (effective_model self request)
                (InferenceRequest.prompt request)
                (InferenceRequest.max_tokens request)
                (InferenceRequest.temperature request)) as [-> ->].
    split_goals; auto.
  - split_goals; auto.
Qed.

Lemma calls_on_cons (sid : Z) (w : World.t) (request : InferenceRequest.t)
    (calls : list (World.t * InferenceRequest.t)) :
  calls_on sid ((w, request) :: calls)
  = (if decide (InferenceRequest.session_id request = sid) then 1 else 0)
    + calls_on sid calls.
Proof.
  unfold calls_on. rewrite filter_cons. simpl.
  case_decide; simpl; lia.
Qed.

(** X6: over any run of [infer] calls, the request count of a session grows
    by exactly the number of calls that carried its id, whatever models and
    backends were involved; the run creates no session, removes none, and
    changes neither sticky model nor creation time. *)
Theorem infer_counts_requests (calls : list (World.t * InferenceRequest.t))
    (self : t) (sid : Z) :
  sessions (infer_all self calls) !! sid
  = (fun s => Session.mk (Session.model s) (Session.created s)
                         (Session.requests s + calls_on sid calls))
    <$> sessions self !! sid.
Proof.
  revert self. induction calls as [|[w request] calls IH]; intros self.
  - simpl. destruct (sessions self !! sid) as [[m c n]|]; simpl; [|reflexivity].
    unfold calls_on. simpl. rewrite Z.add_0_r. reflexivity.
  - simpl. rewrite IH, calls_on_cons.
    destruct (infer_frame self w request) as [-> _].
    rewrite lookup_alter. case_decide as E.
    + rewrite <- E.
      destruct (sessions self !! _) as [[m c n]|]; simpl; [|reflexivity].
      do 2 f_equal. lia.
    + destruct (sessions self !! sid) as [[m c n]|]; reflexivity.
Qed.

(** X7: [infer] never touches the local client, and touches the distributed
    client only when the response is labelled ["petals"]; even then the
    availability flag stays and the caches only grow. *)
Theorem infer_keeps_clients (self : t) (w : World.t)
    (request : InferenceRequest.t) :
  let out := infer self w request in
  ollama out.2 = ollama self
  /\ (InferenceResponse.backend out.1 <> "petals" -> petals out.2 = petals self)
  /\ PetalsClient.available (petals out.2) = PetalsClient.available (petals self)
  /\ PetalsClient.models (petals self) ⊆ PetalsClient.models (petals out.2)
  /\ PetalsClient.tokenizers (petals self)
     ⊆ PetalsClient.tokenizers (petals out.2)
  /\ running out.2 = running self
  /\ port out.2 = port self.
Proof.
  intros out. subst out. rewrite infer_unfold. case_ifs; simpl.
  - split_goals.
  - destruct (petals_generate_backend (petals self) w
                (effective_model self request)
                (InferenceRequest.prompt request)
                (InferenceRequest.max_tokens request)
                (InferenceRequest.temperature request)) as [Hb _].
    destruct (petals_generate_grows (petals self) w
                (effective_model self request)
                (InferenceRequest.prompt request)
                (InferenceRequest.max_tokens request)
                (InferenceRequest.temperature request)) as (Hm & Ht & _).
    split; [reflexivity|]. split; [intros H; contradiction|].
    split; [apply petals_generate_available|].
    split; [exact Hm|]. split; [exact Ht|]. split; reflexivity.
  - split_goals.
Qed.

End InferMore.

(** ** The diagnostic report and the recommended pulls *)

Section Catalog.

Import ArqonInferenceBridge.

Lemma recommended_hints_differ (p q : string * string) :
  In p RECOMMENDED_MODELS -> In q RECOMMENDED_MODELS ->
  "Pull '" +:+ p.2 +:+ "' for " +:+ p.1 +:+ " use case"
  = "Pull '" +:+ q.2 +:+ "' for " +:+ q.1 +:+ " use case" ->
  p = q.
Proof.
  unfold RECOMMENDED_MODELS. simpl.
  intros Hp Hq.
  repeat match goal with
         | H : _ \/ _ |- _ => destruct H as [<-|H]
         | H : False |- _ => destruct H
         end;
    vm_compute; intros E; first [reflexivity | discriminate E].
Qed.

Lemma in_hints (installed : list string) (action : string) :
  In action
     (flat_map (fun '(use_case, model) =>
                  if Py.in_list (Py.split_head ":" model) installed then []
                  else ["Pull '" +:+ model +:+ "' for " +:+ use_case +:+ " use case"])
               RECOMMENDED_MODELS)
  <-> exists use_case model,
        In (use_case, model) RECOMMENDED_MODELS
        /\ Py.in_list (Py.split_head ":" model) installed = false
        /\ action = "Pull '" +:+ model +:+ "' for " +:+ use_case +:+ " use case".
Proof.
  rewrite in_flat_map. split.
  - intros [[use_case model] [Hin Ha]].
    destruct (Py.in_list _ installed) eqn:E; [destruct Ha|].
    destruct Ha as [<-|[]]. eauto.
  - intros (use_case & model & Hin & E & ->).
    exists (use_case, model). split; [exact Hin|]. rewrite E. left. reflexivity.
Qed.

(** The fields of the report, branch by branch. *)
Lemma system_check_fields (self : t) (w : World.t) :
  let report := system_check self w in
  let installed :=
    map (fun m => Py.split_head ":" (ModelInfo.name m))
        (OllamaClient.list_models (ollama self) w) in
  SystemReport.ollama_models report
  = (if OllamaClient.available (ollama self)
     then OllamaClient.list_models (ollama self) w else [])
  /\ SystemReport.ollama_running report
     = (if OllamaClient.available (ollama self)
        then OllamaClient.list_running (ollama self) w else [])
  /\ SystemReport.recommended_actions report
     = (if OllamaClient.available (ollama self)
        then flat_map (fun '(use_case, model) =>
                         if Py.in_list (Py.split_head ":" model) installed
                         then []
                         else ["Pull '" +:+ model +:+ "' for " +:+ use_case
                               +:+ " use case"])
                      RECOMMENDED_MODELS
        else ["Install Ollama: curl -fsSL https://ollama.com/install.sh | sh"])
       ++ (if PetalsClient.available (petals self) then []
           else ["Install Petals: pip install petals transformers"])
  /\ SystemReport.petals_models report
     = (if PetalsClient.available (petals self)
        then PetalsClient.list_models (petals self) else []).
Proof.
  intros report installed. subst report installed. unfold system_check.
  destruct (OllamaClient.available (ollama self)),
           (PetalsClient.available (petals self));
    cbn [SystemReport.ollama_models SystemReport.ollama_running
         SystemReport.recommended_actions SystemReport.petals_models];
    rewrite ?app_nil_r; repeat split.
Qed.

(** X8: in the report of [system_check], with the local server available, a
    recommended model is suggested for pulling exactly when no installed
    model has its base name (the part before the colon), whatever the tags;
    with the local server unavailable the catalog is not asked: no local
    model, no running model and no pull is reported, only the hint to
    install it. The hint to install Petals is the last action exactly when
    the distributed client is unavailable. *)
Theorem system_check_recommendations (self : t) (w : World.t) :
  let report := system_check self w in
  let installed :=
    map (fun m => Py.split_head ":" (ModelInfo.name m))
        (OllamaClient.list_models (ollama self) w) in
  let petals_hint := "Install Petals: pip install petals transformers" in
  (OllamaClient.available (ollama self) = true ->
   SystemReport.ollama_models report = OllamaClient.list_models (ollama self) w
   /\ forall use_case model,
        In (use_case, model) RECOMMENDED_MODELS ->
        (In ("Pull '" +:+ model +:+ "' for " +:+ use_case +:+ " use case")
            (SystemReport.recommended_actions report)
         <-> Py.in_list (Py.split_head ":" model) installed = false))
  /\ (OllamaClient.available (ollama self) = false ->
      SystemReport.ollama_models report = []
      /\ SystemReport.ollama_running report = []
      /\ SystemReport.recommended_actions report
         = "Install Ollama: curl -fsSL https://ollama.com/install.sh | sh"
           :: (if PetalsClient.available (petals self) then []
               else [petals_hint]))
  /\ (In petals_hint (SystemReport.recommended_actions report)
      <-> PetalsClient.available (petals self) = false)
  /\ SystemReport.petals_models report
     = (if PetalsClient.available (petals self)
        then PetalsClient.list_models (petals self) else []).
Proof.
  intros report installed petals_hint.
  destruct (system_check_fields self w) as (Hm & Hr & Ha & Hp).
  fold report installed in Hm, Hr, Ha, Hp.
  assert (Hpull : forall (action : string) u m,
            action = "Pull '" +:+ m +:+ "' for " +:+ u +:+ " use case" ->
            action <> petals_hint).
  { intros action u m -> Heq.
    change ("Pull '" +:+ m +:+ "' for " +:+ u +:+ " use case")
      with (String "P" ("ull '" +:+ m +:+ "' for " +:+ u +:+ " use case")) in Heq.
    discriminate Heq. }
  split; [|split; [|split]].
  - intros A. rewrite A in Hm, Ha. split; [exact Hm|].
    intros use_case model Hin. rewrite Ha, in_app_iff, in_hints. split.
    + intros [(u & m & Hin' & E & Heq)|Hh].
      * apply (recommended_hints_differ (use_case, model) (u, m) Hin Hin') in Heq.
        injection Heq as -> ->. exact E.
      * exfalso. destruct (PetalsClient.available (petals self)); [destruct Hh|].
        destruct Hh as [Heq|[]].
        exact (Hpull _ use_case model eq_refl (eq_sym Heq)).
    + intros E. left. eauto.
  - intros A. rewrite A in Hm, Hr, Ha. split; [exact Hm|]. split; [exact Hr|].
    exact Ha.
  - rewrite Ha, in_app_iff. split.
    + intros [Hin|Hin].
      * exfalso. destruct (OllamaClient.available (ollama self)).
        -- apply in_hints in Hin as (u & m & _ & _ & Heq).
           exact (Hpull _ u m Heq eq_refl).
        -- destruct Hin as [Heq|[]]. discriminate Heq.
      * destruct (PetalsClient.available (petals self)); [destruct Hin|].
        reflexivity.
    + intros ->. right. left. reflexivity.
  - exact Hp.
Qed.

(** [system_check_recommendations] at work: with only ["llama3.2:1b"]
    installed, neither ["llama3.2:3b"] nor ["llama3.2:latest"] is suggested,
    while ["llama3.1:8b"] is. *)
Lemma system_check_recommendations_witness :
  let w :=
    {| World.clock_start := 0%Q; World.clock_end := 1%Q; World.now := 0%Q;
       World.timestamp := EmptyString;
       World.post_generate := fun _ _ _ _ => Raise "down";
       World.get_tags :=
         Ret [ModelInfo.mk "llama3.2:1b" "ollama" 1%Q "1B" "Q8_0" true false];
       World.get_ps := Ret [];
       World.post_pull := fun _ => true;
       World.tokenizer_from_pretrained := fun _ => true;
       World.model_from_pretrained := fun _ => true;
       World.decode_generate := fun _ _ _ _ => Ret EmptyString;
       World.encode_len := fun _ _ => Ret 0 |} in
  let actions := SystemReport.recommended_actions (system_check Sample.both_up w) in
  ~ In "Pull 'llama3.2:3b' for fast use case" actions
  /\ ~ In "Pull 'llama3.2:latest' for balanced use case" actions
  /\ In "Pull 'llama3.1:8b' for quality use case" actions.
Proof.
  intros w actions.
  pose proof (proj2 (proj1 (system_check_recommendations Sample.both_up w)
                       eq_refl)) as H.
  split; [|split].
  - intros Hin. apply (H "fast" "llama3.2:3b") in Hin; [discriminate Hin|].
    simpl. auto.
  - intros Hin. apply (H "balanced" "llama3.2:latest") in Hin;
      [discriminate Hin|]. simpl. auto.
  - apply (H "quality" "llama3.1:8b"); [simpl; auto 10 | reflexivity].
Defined.



End Catalog.

(** ** The dispatcher and the connection loop *)

Section Dispatcher.

Import ArqonInferenceBridge.

Lemma infer_static (self : t) (w : World.t) (request : InferenceRequest.t) :
  running (infer self w request).2 = running self
  /\ port (infer self w request).2 = port self.
Proof. rewrite infer_unfold. case_ifs; split; reflexivity. Qed.

(** What no message changes. *)
Lemma process_request_static (self : t) (w : World.t) (request : Request.t) :
  let out := process_request self w request in
  running out.2 = running self
  /\ port out.2 = port self
  /\ ollama out.2 = ollama self
  /\ default_model out.2 = default_model self
  /\ PetalsClient.available (petals out.2) = PetalsClient.available (petals self).
Proof.
  unfold process_request.
  repeat match goal with
         | |- context [if String.eqb ?a ?b then _ else _] =>
             destruct (String.eqb a b)
         end; cbn [fst snd]; try (repeat split; reflexivity).
  - unfold close_session. case_decide; repeat split; reflexivity.
  - match goal with |- context [infer self w ?r] =>
      pose proof (infer_frame self w r) as (_ & _ & Hd & Ho & Hp);
      pose proof (infer_static self w r) as (Hr & Hq);
      destruct (infer self w r) as [response self1]
    end.
    cbn [fst snd] in *. repeat split; assumption.
Qed.

(** X10: the dispatcher changes the bridge only for the actions
    ["create_session"], ["close_session"] and ["infer"] (the default): a
    catalog or pull action, and an action it does not know, leave the
    bridge exactly as it was; an unknown action is answered with the error
    that names it. No action changes the running flag, the port, the local
    client, the default model or the availability of the distributed
    client. *)
Theorem dispatcher_frame (self : t) (w : World.t) (request : Request.t) :
  let action := default "infer" (Request.action request) in
  let out := process_request self w request in
  (Py.in_list action ["create_session"; "close_session"; "infer"] = false ->
   out.2 = self)
  /\ (Py.in_list action
        ["system_check"; "list_models"; "pull_model"; "pull_recommended";
         "create_session"; "close_session"; "infer"] = false ->
      out = (Reply.Error ("Unknown action: " +:+ action), self))
  /\ running out.2 = running self
  /\ port out.2 = port self
  /\ ollama out.2 = ollama self
  /\ default_model out.2 = default_model self
  /\ PetalsClient.available (petals out.2) = PetalsClient.available (petals self).
Proof.
  intros action out. split; [|split; [|apply process_request_static]].
  - subst out. unfold process_request. fold action. unfold Py.in_list. simpl.
    destruct (String.eqb action "create_session"),
             (String.eqb action "close_session"),
             (String.eqb action "infer"); try discriminate.
    intros _. case_ifs; reflexivity.
  - subst out. unfold process_request. fold action. unfold Py.in_list. simpl.
    destruct (String.eqb action "system_check"),
             (String.eqb action "list_models"),
             (String.eqb action "pull_model"),
             (String.eqb action "pull_recommended"),
             (String.eqb action "create_session"),
             (String.eqb action "close_session"),
             (String.eqb action "infer"); try discriminate.
    reflexivity.
Qed.

(** [dispatcher_frame] at work on an action that the dispatcher does not
    know. *)
Lemma dispatcher_frame_witness :
  process_request Sample.with_session Sample.offline
    (Request.mk (Some "shutdown") None None None None None)
  = (Reply.Error "Unknown action: shutdown", Sample.with_session).
Proof.
  apply (proj1 (proj2 (dispatcher_frame Sample.with_session Sample.offline
                         (Request.mk (Some "shutdown") None None None None None)))).
  reflexivity.
Defined.

(** X11: closing a session right after creating it gives back the registry
    as it was before, provided the counter's value was not a live id (as
    in every bridge reached from the start); the counter is not taken
    back, so the id is spent. *)
Theorem create_then_close (self : t) (w : World.t) (model : option string) :
  sessions self !! next_session_id self = None ->
  let created := create_session self w model in
  let closed := close_session created.2 created.1 in
  sessions closed = sessions self
  /\ next_session_id closed = next_session_id self + 1
  /\ (create_session closed w model).1 = created.1 + 1.
Proof.
  intros L created closed. subst closed created. unfold close_session. simpl.
  rewrite lookup_insert_eq. rewrite decide_True by eauto. simpl.
  split; [|split; reflexivity]. apply delete_insert_id, L.
Qed.

(** [create_then_close] at work on a bridge that holds session 1. *)
Lemma create_then_close_witness :
  let created := create_session Sample.with_session Sample.offline None in
  sessions (close_session created.2 created.1) = sessions Sample.with_session
  /\ created.1 = 2.
Proof.
  intros created. split; [|reflexivity].
  apply (create_then_close Sample.with_session Sample.offline None).
  reflexivity.
Defined.

Lemma replay_model_is_string (chunks : list Wire.Chunk) (self : t) :
  forallb model_is_string chunks = true ->
  replay self (steps chunks) = serve self (objects chunks).
Proof.
  revert self. induction chunks as [|c chunks IH]; intros self H; [reflexivity|].
  simpl in H. apply andb_true_iff in H as [Hc H].
  destruct c as [| |[|e|sid e|request] w send resend]; try discriminate Hc;
    try exact (IH self H).
  change (steps (Wire.Data (Wire.Object request) w send resend :: chunks))
    with (Dispatch w request :: steps chunks).
  change (objects (Wire.Data (Wire.Object request) w send resend :: chunks))
    with ((w, request) :: objects chunks).
  cbn [replay serve].
  destruct (process_request self w request) as [reply self1].
  rewrite (IH self1 H). reflexivity.
Qed.

Lemma process_model_not_string_cases (self : t) (session_id : Z) (e : string) :
  process_model_not_string self session_id e
  = (if OllamaClient.available (ollama self) then Raise e
     else Ret (Reply.Unrouted session_id),
     with_sessions self (alter Session.bump session_id (sessions self))).
Proof.
  unfold process_model_not_string. cbn [with_sessions ollama].
  destruct (OllamaClient.available (ollama self)); reflexivity.
Qed.

(** X12: on a running bridge, for a connection all of whose reads carry
    data and all of whose first sends succeed, [handle_client] answers
    every message with exactly one reply. A message that is not valid JSON
    gets the ["Invalid JSON"] error, one that raises before the bridge is
    touched gets the error with its text, and neither changes the bridge.
    An [infer] request whose model is not a string leaves the request count
    of its session incremented and nothing else changed; it gets the error
    that [model.startswith] raises when the local server is available, and
    the response of the last branch of [infer] when it is not. The request
    objects are answered, and change the bridge, as the dispatcher does:
    replies and final bridge are those of going through the messages that
    reach the registry, in order, without the other messages in between,
    and when every model is a string this is the plain run of the
    dispatcher over the request objects. *)
Theorem handle_client_serves (chunks : list Wire.Chunk) (self : t) :
  running self = true ->
  forallb delivered chunks = true ->
  let replayed := replay self (steps chunks) in
  handle_client self chunks = (interleave chunks replayed.1, replayed.2)
  /\ length (handle_client self chunks).1 = length chunks
  /\ (forallb model_is_string chunks = true ->
      handle_client self chunks
      = (interleave chunks (serve self (objects chunks)).1,
         (serve self (objects chunks)).2))
  /\ (forall session_id e w resend,
        handle_client self
          [Wire.Data (Wire.ModelNotString session_id e) w (Ret tt) resend]
        = ([if OllamaClient.available (ollama self) then Reply.Error e
            else Reply.Unrouted session_id],
           with_sessions self
             (alter Session.bump session_id (sessions self)))).
Proof.
  intros R D replayed.
  assert (H : handle_client self chunks
              = (interleave chunks (replay self (steps chunks)).1,
                 (replay self (steps chunks)).2)
              /\ length (handle_client self chunks).1 = length chunks).
  { clear replayed. revert self R.
    induction chunks as [|c chunks IH]; intros self R.
    - simpl. rewrite R. split; reflexivity.
    - simpl in D. apply andb_true_iff in D as [Dc D].
      destruct c as [| |payload w [e|[]] resend]; try discriminate Dc.
      cbn [handle_client]. rewrite R. cbn [negb].
      destruct payload as [|e|sid e|request].
      + destruct (IH D self R) as [IH1 IH2].
        change (steps (Wire.Data Wire.BadJson w (Ret ()) resend :: chunks))
          with (steps chunks).
        rewrite IH1. cbn [fst snd interleave length] in *.
        rewrite IH1 in IH2. cbn [fst] in IH2. rewrite IH2.
        split; reflexivity.
      + destruct (IH D self R) as [IH1 IH2].
        change (steps (Wire.Data (Wire.Raises e) w (Ret ()) resend :: chunks))
          with (steps chunks).
        rewrite IH1. cbn [fst snd interleave length] in *.
        rewrite IH1 in IH2. cbn [fst] in IH2. rewrite IH2.
        split; reflexivity.
      + change (steps (Wire.Data (Wire.ModelNotString sid e) w (Ret ()) resend
                       :: chunks))
          with (Count sid e :: steps chunks).
        cbn [replay]. rewrite process_model_not_string_cases.
        destruct (IH D (with_sessions self
                          (alter Session.bump sid (sessions self))) R)
          as [IH1 IH2].
        destruct (OllamaClient.available (ollama self));
          rewrite IH1;
          destruct (replay _ (steps chunks)) as [replies self2];
          cbn [fst snd interleave length] in *;
          rewrite IH1 in IH2; cbn [fst] in IH2; rewrite IH2;
          split; reflexivity.
      + change (steps (Wire.Data (Wire.Object request) w (Ret ()) resend
                       :: chunks))
          with (Dispatch w request :: steps chunks).
        cbn [replay].
        pose proof (process_request_static self w request) as (Hr & _).
        destruct (process_request self w request) as [reply self1].
        cbn [fst snd] in Hr. rewrite R in Hr.
        destruct (IH D self1 Hr) as [IH1 IH2].
        rewrite IH1. destruct (replay self1 (steps chunks)) as [replies self2].
        cbn [fst snd interleave length] in *.
        rewrite IH1 in IH2. cbn [fst] in IH2. rewrite IH2.
        split; reflexivity. }
  destruct H as [H1 H2]. split; [exact H1|]. split; [exact H2|]. split.
  - intros L. rewrite H1, (replay_model_is_string chunks self L). reflexivity.
  - intros session_id e w resend. cbn [handle_client]. rewrite R.
    cbn [negb]. rewrite process_model_not_string_cases.
    destruct (OllamaClient.available (ollama self));
      cbn [with_sessions running]; rewrite R; reflexivity.
Qed.

(** [handle_client_serves] at work: a malformed message and an [infer]
    request with a number for a model between the creation of a session
    and its closing, with the local server available. *)
Lemma handle_client_serves_witness :
  let bridge := set_running Sample.both_up true in
  let create := Request.mk (Some "create_session") (Some "M") None None None None in
  let close := Request.mk (Some "close_session") None (Some 1) None None None in
  let chunks :=
    [Wire.Data (Wire.Object create) Sample.offline (Ret tt) (Ret tt);
     Wire.Data Wire.BadJson Sample.offline (Ret tt) (Ret tt);
     Wire.Data (Wire.ModelNotString 1 "'int' object has no attribute 'startswith'")
       Sample.offline (Ret tt) (Ret tt);
     Wire.Data (Wire.Object close) Sample.offline (Ret tt) (Ret tt)] in
  (handle_client bridge chunks).1
  = [Reply.SessionId 1; Reply.Error "Invalid JSON";
     Reply.Error "'int' object has no attribute 'startswith'";
     Reply.Success true]
  /\ length (handle_client bridge chunks).1 = 4%nat.
Proof.
  intros bridge create close chunks.
  destruct (handle_client_serves chunks bridge eq_refl eq_refl)
    as (H1 & H2 & _).
  split; [rewrite H1; reflexivity | exact H2].
Defined.

(** X13: [handle_client] reads nothing while the bridge is not running, and
    nothing after a read that returns no data or raises: whatever follows
    on the connection is neither answered nor dispatched. At no point does
    it send more replies than it has read messages. *)
Theorem handle_client_stops (before after : list Wire.Chunk) (self : t) :
  handle_client self (before ++ Wire.Eof :: after) = handle_client self before
  /\ handle_client self (before ++ Wire.RecvError :: after)
     = handle_client self before
  /\ (length (handle_client self before).1 <= length before)%nat
  /\ handle_client (stop self) before = ([], stop self).
Proof.
  split; [|split; [|split]].
  - revert self. induction before as [|c before IH]; intros self.
    + simpl. destruct (running self); reflexivity.
    + rewrite <- app_comm_cons. cbn [handle_client].
      destruct (running self); cbn [negb]; [|reflexivity].
      destruct c as [| |[|e|sid e|request] w [e'|[]] [e''|[]]]; try reflexivity;
        rewrite ?process_model_not_string_cases;
        try destruct (OllamaClient.available (ollama self));
        try destruct (process_request self w request) as [reply self1];
        rewrite ?IH; reflexivity.
  - revert self. induction before as [|c before IH]; intros self.
    + simpl. destruct (running self); reflexivity.
    + rewrite <- app_comm_cons. cbn [handle_client].
      destruct (running self); cbn [negb]; [|reflexivity].
      destruct c as [| |[|e|sid e|request] w [e'|[]] [e''|[]]]; try reflexivity;
        rewrite ?process_model_not_string_cases;
        try destruct (OllamaClient.available (ollama self));
        try destruct (process_request self w request) as [reply self1];
        rewrite ?IH; reflexivity.
  - revert self. induction before as [|c before IH]; intros self.
    + simpl. destruct (running self); simpl; lia.
    + cbn [handle_client].
      destruct (running self); cbn [negb]; [|simpl; lia].
      destruct c as [| |[|e|sid e|request] w [e'|[]] [e''|[]]];
        rewrite ?process_model_not_string_cases;
        try destruct (OllamaClient.available (ollama self));
        try destruct (process_request self w request) as [reply self1];
        try (simpl; lia);
        match goal with
        | |- context [handle_client ?s before] =>
            specialize (IH s); destruct (handle_client s before)
        end; simpl in *; lia.
  - destruct before; reflexivity.
Qed.

End Dispatcher.

(** ** The single-model bridge *)

Section SingleModel.

Import PetalsBridge.

(** X14: every result of [PetalsBridge.generate] either has no error, or
    has an error with empty text and zero tokens; its text has no
    whitespace at either end. Without both model and tokenizer the result
    is the fixed ["Model not loaded"] error and the swarm is not asked;
    with them, an output that repeats the prompt and goes on gives the
    stripped continuation, and the token count is the number of output
    tokens minus the number of prompt tokens. *)
Theorem bridge_generate_shape (self : t) (sw : Swarm) (prompt : string)
    (max_tokens : Z) (temperature : Q) :
  let r := generate self sw prompt max_tokens temperature in
  (error r = None \/ (text r = EmptyString /\ tokens r = 0))
  /\ trimmed (text r)
  /\ (model self && tokenizer self = false ->
      r = {| text := EmptyString; tokens := 0;
             error := Some "Model not loaded" |})
  /\ (forall continuation n_outputs n_inputs,
        model self && tokenizer self = true ->
        run sw (model_name self) prompt max_tokens temperature
            (Py.gt temperature 0)
        = Ret (prompt +:+ continuation, n_outputs, n_inputs) ->
        r = {| text := Py.strip continuation; tokens := n_outputs - n_inputs;
               error := None |}).
Proof.
  intros r. subst r. unfold generate.
  destruct (model self), (tokenizer self); cbn [negb orb andb];
    try (split; [right; split; reflexivity|];
         split; [apply empty_trimmed|]; split; [reflexivity|];
         intros; discriminate).
  destruct (run sw _ _ _ _ _) as [e|[[generated n_out] n_in]]; simpl.
  - split; [right; split; reflexivity|]. split; [apply empty_trimmed|].
    split; [discriminate|]. intros; discriminate.
  - split; [left; reflexivity|]. split; [apply strip_trimmed|].
    split; [discriminate|].
    intros continuation n_outputs n_inputs _ [= -> -> ->].
    rewrite slice_from_app. reflexivity.
Qed.

(** [bridge_generate_shape] at work: an unloaded bridge, and a loaded one
    whose output repeats the prompt. *)
Lemma bridge_generate_shape_witness :
  let sw := {| tokenizer_from_pretrained := fun _ => true;
               model_from_pretrained := fun _ => true;
               run := fun _ prompt _ _ _ => Ret (prompt +:+ "  fine. ", 7, 2) |} in
  generate (init true "m" 8765) sw "Hi" 256 (7 # 10)%Q
  = {| text := EmptyString; tokens := 0; error := Some "Model not loaded" |}
  /\ generate (mk true "m" 8765 true true true) sw "Hi" 256 (7 # 10)%Q
     = {| text := "fine."; tokens := 5; error := None |}.
Proof.
  intros sw. split.
  - apply (proj1 (proj2 (proj2
             (bridge_generate_shape (init true "m" 8765) sw "Hi" 256
                (7 # 10)%Q)))).
    reflexivity.
  - apply (proj2 (proj2 (proj2
             (bridge_generate_shape (mk true "m" 8765 true true true) sw "Hi"
                256 (7 # 10)%Q))) "  fine. " 7 2); reflexivity.
Defined.

(** X15: [PetalsBridge.load_model] succeeds exactly when Petals is
    available and both fetches succeed, and then the bridge holds model and
    tokenizer, so [generate] asks the swarm instead of answering
    ["Model not loaded"]. Without Petals nothing is fetched and nothing
    changes. A failed reload never drops a model that was loaded before,
    and no load changes the model name, the port or the running flag. *)
Theorem bridge_load_model (self : t) (sw sw' : Swarm) (prompt : string)
    (max_tokens : Z) (temperature : Q) :
  let out := load_model self sw in
  (out.1 = true <->
   PETALS_AVAILABLE self = true
   /\ tokenizer_from_pretrained sw (model_name self) = true
   /\ model_from_pretrained sw (model_name self) = true)
  /\ (out.1 = true ->
      model out.2 = true /\ tokenizer out.2 = true
      /\ generate out.2 sw' prompt max_tokens temperature
         = match run sw' (model_name self) prompt max_tokens temperature
                     (Py.gt temperature 0) with
           | Ret (generated_text, n_outputs, n_inputs) =>
               {| text := Py.strip (Py.slice_from (String.length prompt)
                                      generated_text);
                  tokens := n_outputs - n_inputs; error := None |}
           | Raise e => {| text := EmptyString; tokens := 0; error := Some e |}
           end)
  /\ (PETALS_AVAILABLE self = false -> out = (false, self))
  /\ (model self = true -> model out.2 = true)
  /\ (tokenizer self = true -> tokenizer out.2 = true)
  /\ model_name out.2 = model_name self
  /\ port out.2 = port self
  /\ running out.2 = running self
  /\ PETALS_AVAILABLE out.2 = PETALS_AVAILABLE self.
Proof.
  intros out.
  assert (Hgen : forall s : t,
    model s = true -> tokenizer s = true -> model_name s = model_name self ->
    generate s sw' prompt max_tokens temperature
    = match run sw' (model_name self) prompt max_tokens temperature
                (Py.gt temperature 0) with
      | Ret (generated_text, n_outputs, n_inputs) =>
          {| text := Py.strip (Py.slice_from (String.length prompt)
                                 generated_text);
             tokens := n_outputs - n_inputs; error := None |}
      | Raise e => {| text := EmptyString; tokens := 0; error := Some e |}
      end).
  { intros s Hm Ht Hn. unfold generate. rewrite Hm, Ht, Hn. cbn [negb orb].
    destruct (run sw' _ _ _ _ _) as [e|[[g n] m]]; reflexivity. }
  subst out. unfold load_model.
  destruct (PETALS_AVAILABLE self) eqn:A; cbn [negb].
  2: { split; [split; [discriminate | intros (? & _); discriminate]|].
       split; [discriminate|]. repeat split; auto. }
  destruct (tokenizer_from_pretrained sw (model_name self)) eqn:T; cbn [negb].
  2: { split; [split; [discriminate | intros (_ & ? & _); discriminate]|].
       split; [discriminate|]. split; [discriminate|]. repeat split; auto. }
  destruct (model_from_pretrained sw (model_name self)) eqn:M; cbn [negb].
  2: { split; [split; [discriminate | intros (_ & _ & ?); discriminate]|].
       split; [discriminate|]. split; [discriminate|]. repeat split; auto. }
  split; [split; auto|].
  split; [intros _; split; [reflexivity|]; split; [reflexivity|];
          apply Hgen; reflexivity|].
  split; [discriminate|]. repeat split; auto.
Qed.

(** [bridge_load_model] at work: a load that succeeds, and a reload that
    loses the model fetch and keeps the model of before. *)
Lemma bridge_load_model_witness :
  let good := {| tokenizer_from_pretrained := fun _ => true;
                 model_from_pretrained := fun _ => true;
                 run := fun _ _ _ _ _ => Raise "unreachable" |} in
  let bad := {| tokenizer_from_pretrained := fun _ => true;
                model_from_pretrained := fun _ => false;
                run := fun _ _ _ _ _ => Raise "unreachable" |} in
  (load_model (init true "m" 8765) good).1 = true
  /\ model (load_model (mk true "m" 8765 true true false) bad).2 = true.
Proof.
  intros good bad. split.
  - apply (proj2 (proj1 (bridge_load_model (init true "m" 8765) good good
                           EmptyString 0 0%Q))).
    repeat split.
  - apply (proj1 (proj2 (proj2 (proj2
             (bridge_load_model (mk true "m" 8765 true true false) bad bad
                EmptyString 0 0%Q))))).
    reflexivity.
Defined.

Lemma handle_client_not_running (self : t) (chunks : list Chunk) :
  running self = false -> handle_client self chunks = ([], self).
Proof. intros R. destruct chunks; simpl; rewrite R; reflexivity. Qed.

(** X16: serving a connection never loads or unloads anything: the model,
    the tokenizer, the model name, the port and the availability flag are
    what they were. It sends at most one reply per message read. The
    running flag changes only through a shutdown request, which clears it:
    without a shutdown request among the messages the flag is what it was,
    and it is never set. The shutdown notice is the last reply of its
    connection and comes with the flag cleared. A shutdown request read by
    a running bridge clears the flag and ends the connection, with the
    notice for its only reply if the send returns. *)
Theorem bridge_connection_frame (chunks : list Chunk) (self : t) :
  let out := handle_client self chunks in
  model out.2 = model self
  /\ tokenizer out.2 = tokenizer self
  /\ model_name out.2 = model_name self
  /\ port out.2 = port self
  /\ PETALS_AVAILABLE out.2 = PETALS_AVAILABLE self
  /\ (length out.1 <= length chunks)%nat
  /\ (running out.2 = running self
      \/ (running self = true /\ running out.2 = false
          /\ existsb shutdown_request chunks = true))
  /\ (existsb shutdown_request chunks = false -> running out.2 = running self)
  /\ (forall i, out.1 !! i = Some ShuttingDown ->
                S i = length out.1 /\ running out.2 = false)
  /\ (forall request sw send_ok rest,
        running self = true -> type request = Some "shutdown" ->
        handle_client self (Data (Object request) sw send_ok :: rest)
        = (if send_ok then [ShuttingDown] else [], stop self)).
Proof.
  assert (Hmain : forall (chunks : list Chunk) (self : t),
    let out := handle_client self chunks in
    model out.2 = model self
    /\ tokenizer out.2 = tokenizer self
    /\ model_name out.2 = model_name self
    /\ port out.2 = port self
    /\ PETALS_AVAILABLE out.2 = PETALS_AVAILABLE self
    /\ (length out.1 <= length chunks)%nat
    /\ (running out.2 = running self
        \/ (running self = true /\ running out.2 = false
            /\ existsb shutdown_request chunks = true))
    /\ (forall i, out.1 !! i = Some ShuttingDown ->
                  S i = length out.1 /\ running out.2 = false)).
  { clear chunks self.
    induction chunks as [|c chunks IH]; intros self.
    { simpl. destruct (running self) eqn:R; simpl;
        repeat split; auto; discriminate. }
    set (P := fun out : list Reply * t =>
      model out.2 = model self
      /\ tokenizer out.2 = tokenizer self
      /\ model_name out.2 = model_name self
      /\ port out.2 = port self
      /\ PETALS_AVAILABLE out.2 = PETALS_AVAILABLE self
      /\ (length out.1 <= length (c :: chunks))%nat
      /\ (running out.2 = running self
          \/ (running self = true /\ running out.2 = false
              /\ existsb shutdown_request (c :: chunks) = true))
      /\ (forall i, out.1 !! i = Some ShuttingDown ->
                    S i = length out.1 /\ running out.2 = false)).
    change (P (handle_client self (c :: chunks))).
    assert (Hnil : P ([], self)).
    { unfold P. simpl. repeat split; auto; try lia; discriminate. }
    assert (Hstop : forall replies,
              running self = true -> shutdown_request c = true ->
              replies = [] \/ replies = [ShuttingDown] ->
              P (replies, set_running self false)).
    { intros replies R Hc Hr. unfold P. cbn [fst snd].
      split; [reflexivity|]. split; [reflexivity|]. split; [reflexivity|].
      split; [reflexivity|]. split; [reflexivity|].
      split; [destruct Hr as [-> | ->]; simpl; lia|].
      split; [right; split; [exact R|]; split; [reflexivity|];
              cbn [existsb]; rewrite Hc; reflexivity|].
      intros i Hi. split; [|reflexivity].
      destruct Hr as [-> | ->]; [discriminate Hi|].
      destruct i as [|i]; [reflexivity | discriminate Hi]. }
    assert (Hexists : forall q : Prop,
              q /\ existsb shutdown_request chunks = true ->
              q /\ existsb shutdown_request (c :: chunks) = true).
    { intros q [Hq He]. split; [exact Hq|]. cbn [existsb]. rewrite He.
      apply orb_true_r. }
    assert (Hskip : P (handle_client self chunks)).
    { destruct (IH self) as (H1 & H2 & H3 & H4 & H5 & H6 & H7 & H8).
      unfold P. split; [exact H1|]. split; [exact H2|]. split; [exact H3|].
      split; [exact H4|]. split; [exact H5|]. split; [simpl; lia|].
      split; [|exact H8].
      destruct H7 as [H7|(Ha & Hb & Hc)]; [left; exact H7|].
      right. split; [exact Ha|]. apply Hexists. split; assumption. }
    assert (Hcons : forall reply, reply <> ShuttingDown ->
              P (let '(replies, self') := handle_client self chunks in
                 (reply :: replies, self'))).
    { intros reply Hne.
      destruct (IH self) as (H1 & H2 & H3 & H4 & H5 & H6 & H7 & H8).
      destruct (handle_client self chunks) as [replies self'].
      unfold P. cbn [fst snd] in *.
      split; [exact H1|]. split; [exact H2|]. split; [exact H3|].
      split; [exact H4|]. split; [exact H5|]. split; [simpl; lia|].
      split.
      - destruct H7 as [H7|(Ha & Hb & Hc)]; [left; exact H7|].
        right. split; [exact Ha|]. apply Hexists. split; assumption.
      - intros [|i] Hi; [injection Hi as Hi; contradiction|].
        destruct (H8 i Hi) as [Hl Hr]. split; [simpl; lia | exact Hr]. }
    cbn [handle_client]. destruct (running self) eqn:R; cbn [negb];
      [|exact Hnil].
    destruct c as [| |[|e|request] sw []]; try exact Hnil.
    - apply Hcons. discriminate.
    - repeat case_decide; try exact Hskip; try (apply Hcons; discriminate).
      apply Hstop; [reflexivity | | auto].
      cbn [shutdown_request]. apply bool_decide_eq_true_2. assumption.
    - repeat case_decide; try exact Hskip; try exact Hnil.
      apply Hstop; [reflexivity | | auto].
      cbn [shutdown_request]. apply bool_decide_eq_true_2. assumption. }
  intros out. destruct (Hmain chunks self) as (H1 & H2 & H3 & H4 & H5 & H6 & H7 & H8).
  fold out in H1, H2, H3, H4, H5, H6, H7, H8.
  split; [exact H1|]. split; [exact H2|]. split; [exact H3|].
  split; [exact H4|]. split; [exact H5|]. split; [exact H6|].
  split; [exact H7|]. split; [|split; [exact H8|]].
  - intros He. destruct H7 as [H7|(_ & _ & Hc)]; [exact H7|]. congruence.
  - intros request sw send_ok rest R T. cbn [handle_client]. rewrite R.
    cbn [negb]. rewrite T.
    rewrite (decide_False (P := Some "shutdown" = Some "generate"))
      by discriminate.
    rewrite (decide_False (P := Some "shutdown" = Some "status"))
      by discriminate.
    rewrite (decide_True (P := Some "shutdown" = Some "shutdown"))
      by reflexivity.
    destruct send_ok; reflexivity.
Qed.

(** [bridge_connection_frame] at work: a status request leaves the flag, a
    shutdown request clears it. *)
Lemma bridge_connection_frame_witness :
  let sw := {| tokenizer_from_pretrained := fun _ => true;
               model_from_pretrained := fun _ => true;
               run := fun _ _ _ _ _ => Raise "unreachable" |} in
  let bridge := mk true "m" 8765 false false true in
  let status := {| type := Some "status"; prompt := None; max_tokens := None;
                   temperature := None |} in
  let shutdown := {| type := Some "shutdown"; prompt := None;
                     max_tokens := None; temperature := None |} in
  running (handle_client bridge [Data (Object status) sw true]).2 = true
  /\ handle_client bridge [Data (Object shutdown) sw true;
                           Data (Object status) sw true]
     = ([ShuttingDown], stop bridge).
Proof.
  intros sw bridge status shutdown. split.
  - apply (proj1 (proj2 (proj2 (proj2 (proj2 (proj2 (proj2 (proj2
             (bridge_connection_frame [Data (Object status) sw true]
                bridge))))))))).
    reflexivity.
  - reflexivity.
Defined.

(** X17: a request object whose type is none of ["generate"], ["status"]
    and ["shutdown"] (a missing type included) is passed over in silence:
    it gets no reply, not even an error, and the connection goes on as if
    it had not been sent. *)
Theorem bridge_passes_over_untyped (chunks : list Chunk) (self : t) :
  handle_client self (filter (fun c => untyped c = false) chunks)
  = handle_client self chunks.
Proof.
  revert self. induction chunks as [|c chunks IH]; intros self; [reflexivity|].
  rewrite filter_cons. destruct (running self) eqn:R.
  2: { rewrite !handle_client_not_running by exact R. reflexivity. }
  case_decide as U.
  - cbn [handle_client]. rewrite R. cbn [negb].
    destruct c as [| |[|e|request] sw ok]; try reflexivity.
    + rewrite IH. reflexivity.
    + repeat case_decide; rewrite ?IH; reflexivity.
  - destruct c as [| |[|e|request] sw ok]; try (exfalso; apply U; reflexivity).
    rewrite IH. cbn [handle_client]. rewrite R. cbn [negb].
    simpl in U.
    assert (G : type request <> Some "generate"
                /\ type request <> Some "status"
                /\ type request <> Some "shutdown").
    { repeat split; intros E; apply U; rewrite E; reflexivity. }
    destruct G as (G1 & G2 & G3).
    rewrite !decide_False by assumption. reflexivity.
Qed.

End SingleModel.

(** ** The GPU probe *)

Section GpuProbe.

Import SystemCheck.

Lemma split_on_length (sep : ascii) (s : string) :
  length (Py.split_on sep s) = S (count_char sep s).
Proof.
  induction s as [|c s IH]; [reflexivity|].
  cbn [Py.split_on count_char]. destruct (Ascii.eqb c sep).
  - cbn [length]. rewrite IH. reflexivity.
  - destruct (Py.split_on sep s) as [|field fields]; [discriminate IH|].
    exact IH.
Qed.

Lemma nth_strip_trimmed (i : nat) (parts : list string) :
  trimmed (nth i (map Py.strip parts) EmptyString).
Proof.
  revert i. induction parts as [|p parts IH]; intros [|i]; simpl;
    try apply empty_trimmed; [apply strip_trimmed | apply IH].
Qed.

Lemma unknown_trimmed : trimmed "unknown".
Proof. change "unknown" with (Py.strip "unknown"). apply strip_trimmed. Qed.

Lemma gpu_of_line_cases (line : string) :
  gpu_of_line line =
    match line, Py.split_on "," line with
    | EmptyString, _ => []
    | _, a :: b :: rest =>
        [ {| name := Py.strip a; vram := Py.strip b;
             compute := match rest with
                        | [] => "unknown"
                        | c :: _ => Py.strip c
                        end |} ]
    | _, _ => []
    end.
Proof.
  unfold gpu_of_line. destruct line as [|ch line]; [reflexivity|].
  destruct (Py.split_on "," (String ch line)) as [|a [|b [|c rest]]];
    reflexivity.
Qed.

(** X18: in the report of [check_gpu], an NVIDIA GPU is reported exactly
    when [nvidia-smi] ran and returned 0; otherwise (the program is
    missing, fails or times out) no GPU is listed. Every field of every
    listed GPU is free of whitespace at both ends, and there are at most
    as many GPUs as lines in the stripped output. CUDA is reported exactly
    when [torch] could be asked and said so, independently of
    [nvidia-smi]. *)
Theorem check_gpu_report (host : Host) :
  let report := check_gpu host in
  (nvidia report = true <-> exists stdout, nvidia_smi host = Ret (0, stdout))
  /\ (nvidia report = false -> gpus report = [])
  /\ (cuda_available report = true <-> torch_cuda host = Ret true)
  /\ Forall (fun g => trimmed (name g) /\ trimmed (vram g)
                      /\ trimmed (compute g)) (gpus report)
  /\ (forall stdout,
        nvidia_smi host = Ret (0, stdout) ->
        (length (gpus report)
         <= S (count_char "010" (Py.strip stdout)))%nat).
Proof.
  intros report.
  assert (Hline : forall line,
            Forall (fun g => trimmed (name g) /\ trimmed (vram g)
                             /\ trimmed (compute g)) (gpu_of_line line)
            /\ (length (gpu_of_line line) <= 1)%nat).
  { intros line. rewrite gpu_of_line_cases.
    destruct line as [|ch line]; [split; [apply Forall_nil_2 | simpl; lia]|].
    destruct (Py.split_on "," (String ch line)) as [|a [|b rest]];
      [split; [apply Forall_nil_2 | simpl; lia]
      |split; [apply Forall_nil_2 | simpl; lia]|].
    split; [|simpl; lia]. constructor; [|constructor]. cbn [name vram compute].
    split; [apply strip_trimmed|]. split; [apply strip_trimmed|].
    destruct rest; [apply unknown_trimmed | apply strip_trimmed]. }
  assert (Hlines : forall lines,
            Forall (fun g => trimmed (name g) /\ trimmed (vram g)
                             /\ trimmed (compute g))
                   (flat_map gpu_of_line lines)
            /\ (length (flat_map gpu_of_line lines) <= length lines)%nat).
  { induction lines as [|line lines [IH1 IH2]]; [split; [constructor|simpl; lia]|].
    cbn [flat_map]. destruct (Hline line) as [H1 H2]. split.
    - apply Forall_app. split; assumption.
    - rewrite length_app. simpl. lia. }
  subst report. unfold check_gpu.
  assert (Hcuda : match torch_cuda host with Ret b => b | Raise _ => false end
                  = true <-> torch_cuda host = Ret true).
  { destruct (torch_cuda host) as [e|[]]; split; congruence. }
  destruct (nvidia_smi host) as [e|[returncode stdout]] eqn:N.
  - cbn [nvidia gpus cuda_available].
    split; [split; [discriminate | intros [? ?]; discriminate]|].
    split; [reflexivity|]. split; [exact Hcuda|].
    split; [constructor | intros; discriminate].
  - destruct (returncode =? 0) eqn:E; cbn [nvidia gpus cuda_available].
    + apply Z.eqb_eq in E. subst returncode.
      split; [split; eauto|]. split; [discriminate|]. split; [exact Hcuda|].
      split; [apply Hlines|].
      intros stdout' [= <-]. rewrite <- split_on_length. apply Hlines.
    + apply Z.eqb_neq in E.
      split; [split; [discriminate | intros [? [= ? _]]; contradiction]|].
      split; [reflexivity|]. split; [exact Hcuda|].
      split; [constructor|]. intros stdout' [= ? _]. contradiction.
Qed.

Lemma gpu_of_line_entry (line : string) :
  gpu_of_line line
  = match Py.split_on "," line with
    | a :: b :: rest =>
        [ {| name := Py.strip a; vram := Py.strip b;
             compute := match rest with
                        | [] => "unknown"
                        | c :: _ => Py.strip c
                        end |} ]
    | _ => []
    end.
Proof.
  rewrite gpu_of_line_cases. destruct line as [|ch line]; reflexivity.
Qed.

Lemma gpu_of_line_length (line : string) :
  length (gpu_of_line line)
  = (if decide (count_char "," line = 0%nat) then 0 else 1)%nat.
Proof.
  rewrite gpu_of_line_entry.
  pose proof (split_on_length "," line) as L.
  destruct (Py.split_on "," line) as [|a [|b rest]]; cbn [length] in L.
  - discriminate L.
  - injection L as <-. reflexivity.
  - injection L as <-. reflexivity.
Qed.

(** X19: when [nvidia-smi] returns 0, [check_gpu] lists one GPU for each
    line of the stripped output that contains a comma, in the order of the
    lines, and none for the other lines: the entry's name and memory are
    the first two comma-separated fields of the line, stripped, and its
    compute capability is the third field, stripped, or ["unknown"] when
    the line has only two fields. *)
Theorem gpu_line_fields (host : Host) (stdout : string) :
  nvidia_smi host = Ret (0, stdout) ->
  let lines := Py.split_on "010" (Py.strip stdout) in
  gpus (check_gpu host)
  = omap (fun line =>
            match Py.split_on "," line with
            | a :: b :: rest =>
                Some {| name := Py.strip a; vram := Py.strip b;
                        compute := match rest with
                                   | [] => "unknown"
                                   | c :: _ => Py.strip c
                                   end |}
            | _ => None
            end) lines
  /\ length (gpus (check_gpu host))
     = length (filter (fun line => count_char "," line <> 0%nat) lines)
  /\ (forall line a b,
        In line lines -> Py.split_on "," line = [a; b] ->
        In {| name := Py.strip a; vram := Py.strip b; compute := "unknown" |}
           (gpus (check_gpu host))).
Proof.
  intros N lines.
  assert (Hg : gpus (check_gpu host) = flat_map gpu_of_line lines).
  { unfold check_gpu. rewrite N. reflexivity. }
  rewrite Hg. clear Hg N. split; [|split].
  - induction lines as [|line rest IH]; [reflexivity|].
    cbn [flat_map omap list_omap]. rewrite IH, gpu_of_line_entry.
    destruct (Py.split_on "," line) as [|a [|b fields]]; reflexivity.
  - induction lines as [|line rest IH]; [reflexivity|].
    cbn [flat_map]. rewrite length_app, IH, gpu_of_line_length, filter_cons.
    destruct (decide (count_char "," line = 0%nat)) as [E|E].
    + rewrite decide_False by (intros H; exact (H E)). reflexivity.
    + rewrite decide_True by exact E. reflexivity.
  - intros line a b Hin S. apply in_flat_map. exists line.
    split; [exact Hin|]. rewrite gpu_of_line_entry, S. left. reflexivity.
Qed.

(** [gpu_line_fields] at work on an output with two GPUs and a stray line. *)
Lemma gpu_line_fields_witness :
  gpus (check_gpu
          {| nvidia_smi :=
               Ret (0, "NVIDIA GeForce RTX 3090, 24576 MiB, 8.6
no devices
Tesla T4 , 15360 MiB
");
             torch_cuda := Raise "No module named 'torch'" |})
  = [ {| name := "NVIDIA GeForce RTX 3090"; vram := "24576 MiB";
         compute := "8.6" |};
      {| name := "Tesla T4"; vram := "15360 MiB"; compute := "unknown" |} ].
Proof.
  rewrite (proj1 (gpu_line_fields
             {| nvidia_smi :=
                  Ret (0, "NVIDIA GeForce RTX 3090, 24576 MiB, 8.6
no devices
Tesla T4 , 15360 MiB
");
                torch_cuda := Raise "No module named 'torch'" |}
             _ eq_refl)).
  reflexivity.
Defined.

End GpuProbe.

(** ** The catalog and the router agree *)

Section CatalogAndRouter.

Import ArqonInferenceBridge.

Lemma in_list_In (x : string) (l : list string) :
  Py.in_list x l = true <-> In x l.
Proof.
  unfold Py.in_list. rewrite existsb_exists. split.
  - intros (y & Hy & E). apply String.eqb_eq in E. subst y. exact Hy.
  - intros H. exists x. split; [exact H | apply String.eqb_refl].
Qed.

Lemma petals_list_models_names (p : PetalsClient.t) :
  map ModelInfo.name (PetalsClient.list_models p) = PetalsClient.SUPPORTED_MODELS.
Proof. reflexivity. Qed.

Lemma petals_list_models_entries (p : PetalsClient.t) (info : ModelInfo.t) :
  In info (PetalsClient.list_models p) ->
  ModelInfo.backend info = "petals"
  /\ ModelInfo.available info = PetalsClient.available p
  /\ ModelInfo.running info = false
  /\ ModelInfo.quantization info = "distributed".
Proof.
  unfold PetalsClient.list_models. rewrite in_map_iff.
  intros (name & <- & _). case_ifs; repeat split.
Qed.

(** X20: every model that [infer] sends to the distributed adapter is in
    the catalog: the answer to a ["list_models"] message, whatever the
    local server says at that moment, has an entry with the model's name,
    labelled ["petals"] and marked available. *)
Theorem routed_models_are_listed (self : t) (w w' : World.t)
    (request : InferenceRequest.t) :
  let r := (infer self w request).1 in
  InferenceResponse.backend r = "petals" ->
  exists info models,
    process_request self w'
      (Request.mk (Some "list_models") None None None None None)
    = (Reply.Models models, self)
    /\ In info models
    /\ ModelInfo.name info = InferenceResponse.model_used r
    /\ ModelInfo.backend info = "petals"
    /\ ModelInfo.available info = true.
Proof.
  intros r. subst r. rewrite infer_model_used, infer_unfold.
  destruct (OllamaClient.available (ollama self)
            && negb (Py.startswith (effective_model self request) "meta-llama/"))
    eqn:L.
  { cbn [fst]. intros B.
    destruct (ollama_generate_backend (ollama self) w
                (effective_model self request)
                (InferenceRequest.prompt request)
                (InferenceRequest.max_tokens request)
                (InferenceRequest.temperature request)) as [Hb _].
    change (InferenceResponse.backend (InferenceResponse.set_session_id _ ?x))
      with (InferenceResponse.backend x) in B.
    rewrite Hb in B. discriminate B. }
  destruct (PetalsClient.available (petals self)) eqn:A; cbn [andb];
    [|intros B; discriminate B].
  destruct (Py.in_list (effective_model self request)
              PetalsClient.SUPPORTED_MODELS) eqn:S;
    [|intros B; discriminate B].
  intros _. apply in_list_In in S.
  rewrite <- (petals_list_models_names (petals self)) in S.
  apply in_map_iff in S as (info & Hname & Hin).
  destruct (petals_list_models_entries _ _ Hin) as (Hb & Ha & _).
  exists info,
    (OllamaClient.list_models (ollama self) w'
     ++ PetalsClient.list_models (petals self)).
  split; [reflexivity|]. split; [apply in_app_iff; right; exact Hin|].
  split; [exact Hname|]. split; [exact Hb|]. rewrite Ha. exact A.
Qed.

(** [routed_models_are_listed] at work with the local server down. *)
Lemma routed_models_are_listed_witness :
  exists info models,
    process_request (init 8765 false true) Sample.offline
      (Request.mk (Some "list_models") None None None None None)
    = (Reply.Models models, init 8765 false true)
    /\ In info models
    /\ ModelInfo.name info
       = InferenceResponse.model_used
           (infer (init 8765 false true) (Sample.echoing 0 1)
              (Sample.request 0 (Some "meta-llama/Meta-Llama-3.1-8B-Instruct"))).1
    /\ ModelInfo.backend info = "petals"
    /\ ModelInfo.available info = true.
Proof.
  apply (routed_models_are_listed (init 8765 false true) (Sample.echoing 0 1)
           Sample.offline
           (Sample.request 0 (Some "meta-llama/Meta-Llama-3.1-8B-Instruct"))).
  reflexivity.
Defined.

Lemma process_request_cover (self : t) (w : World.t) (request : Request.t) :
  tokenizers_cover_models (petals self) ->
  tokenizers_cover_models (petals (process_request self w request).2).
Proof.
  intros H. unfold process_request.
  repeat match goal with
         | |- context [if String.eqb ?a ?b then _ else _] =>
             destruct (String.eqb a b)
         end; cbn [fst snd]; try exact H.
  - unfold close_session. case_decide; exact H.
  - match goal with |- context [infer self w ?r] =>
      rewrite (surjective_pairing (infer self w r)); cbn [snd];
      rewrite (infer_unfold self w r)
    end.
    case_ifs; cbn [snd]; try exact H.
    apply petals_generate_grows, H.
Qed.

(** X21: in every bridge reached from the start by any run of messages,
    each cached model of the distributed client has its tokenizer, so the
    cache lookups of [PetalsClient.generate] cannot fail there. *)
Theorem caches_stay_consistent (port : Z) (ollama_up has_petals : bool)
    (msgs : list (World.t * Request.t)) :
  tokenizers_cover_models (petals (serve (init port ollama_up has_petals) msgs).2).
Proof.
  assert (H : forall (self : t),
            tokenizers_cover_models (petals self) ->
            tokenizers_cover_models (petals (serve self msgs).2)).
  { induction msgs as [|[w request] msgs IH]; intros self Hc; [exact Hc|].
    cbn [serve].
    pose proof (process_request_cover self w request Hc) as Hc'.
    destruct (process_request self w request) as [reply self1].
    specialize (IH self1 Hc').
    destruct (serve self1 msgs) as [replies self2]. exact IH. }
  apply H. unfold tokenizers_cover_models. simpl. reflexivity.
Qed.

End CatalogAndRouter.
